(** * riot_auth/auth.py: a shallow embedding of [RiotAuth] and its properties

    The development follows the layout of the Python module:
    - Python values, exceptions and the outcome of a call;
    - the pieces of the standard library the class calls and whose behaviour
      the properties depend on ([str.split], [str.join],
      [base64.urlsafe_b64decode] down to the loop of [binascii.a2b_base64]);
    - the environment: the host, the library functions taken as given
      ([json.loads], [urlsplit] and [parse_qsl], [str]), the tables of the
      [libssl] the host has, and the provider;
    - the TLS profile built by [create_riot_auth_ssl_ctx];
    - the session object and its private helpers ([__update],
      [__get_keys_from_access_token], [__set_tokens_from_uri]);
    - the negotiation with the provider ([authorize], [reauthorize]), as
      state passing over the instance, the trace of requests and the files;
    - the vocabulary of the properties and a scripted provider to run the
      class against;
    - the properties.

    A Python [str] is a [string]: a sequence of code points below 256.
    A Python [bytes] is a list of integers.  The coroutines are run to
    completion one step after the other, as a single task awaits them. *)

From Stdlib Require Import ZArith Lia Bool List Ascii String.
From stdpp Require Import base option gmap strings list fin_maps.

Set Warnings "-register-all".
Open Scope string_scope.
Open Scope Z_scope.

(** ** Python values *)

(** The values that travel through the class: what [json.loads] and
    [r.json()] produce, and what the session attributes hold.  A [dict] is an
    association list in which the first binding of a key is the live one.
    A float is carried as its IEEE-754 bit pattern; the class never computes
    with one. *)
Inductive value : Type :=
| VNone
| VBool (b : bool)
| VInt (n : Z)
| VFloat (bits : Z)
| VStr (s : string)
| VList (l : list value)
| VDict (d : list (string * value)).

(** ** Exceptions *)

(** Errors of the HTTP client ([aiohttp]): a non-2xx status under
    [raise_for_status=True], a connection failure, or a body [r.json()]
    cannot read. *)
Inductive client_error : Type :=
| ClientResponseError (status : Z)
| ClientConnectionError
| ContentTypeError.

(** What [json.loads] raises on [bytes]: the bytes are not UTF-8, -16 or -32
    text, the text is not a JSON document, the document nests deeper than the
    interpreter's recursion limit, or it holds an integer of more digits than
    the interpreter converts. *)
Inductive json_error : Type :=
| JSONDecodeError
| UnicodeDecodeError
| RecursionError
| IntegerDigitsError.

Inductive exn : Type :=
(* riot_auth.auth_exceptions, as imported at the top of auth.py *)
| RiotAuthenticationError (err : value)
| RiotRatelimitError
| RiotUnknownErrorTypeError (err : value)
| RiotUnknownResponseTypeError (resp_type : value)
| RiotMultifactorError
(* builtins *)
| NameError (name : string)
| KeyError (key : string)
| IndexError
| TypeError
| AttributeError
| ValueError
| NotImplementedError
| OSError
(* binascii, json, aiohttp *)
| binascii_Error
| JSONError (e : json_error)
| ClientError (e : client_error).

(** The name of the class of an exception. *)
Definition class_name (e : exn) : string :=
  match e with
  | RiotAuthenticationError _ => "RiotAuthenticationError"
  | RiotRatelimitError => "RiotRatelimitError"
  | RiotUnknownErrorTypeError _ => "RiotUnknownErrorTypeError"
  | RiotUnknownResponseTypeError _ => "RiotUnknownResponseTypeError"
  | RiotMultifactorError => "RiotMultifactorError"
  | NameError _ => "NameError"
  | KeyError _ => "KeyError"
  | IndexError => "IndexError"
  | TypeError => "TypeError"
  | AttributeError => "AttributeError"
  | ValueError => "ValueError"
  | NotImplementedError => "NotImplementedError"
  | OSError => "OSError"
  | binascii_Error => "binascii.Error"
  | JSONError JSONDecodeError => "json.JSONDecodeError"
  | JSONError UnicodeDecodeError => "UnicodeDecodeError"
  | JSONError RecursionError => "RecursionError"
  | JSONError IntegerDigitsError => "ValueError"
  | ClientError (ClientResponseError _) => "aiohttp.ClientResponseError"
  | ClientError ClientConnectionError => "aiohttp.ClientConnectionError"
  | ClientError ContentTypeError => "aiohttp.ContentTypeError"
  end.

(** Modelled from the spec: the class declarations of
    riot_auth/auth_exceptions.py, which auth.py imports.  The spec's error
    taxonomy lists the authentication, multifactor, rate-limit,
    unknown-error-type and unknown-response-type errors as separate kinds, and
    the wrapper "catches only AuthenticationError": no other class is a
    subclass of [RiotAuthenticationError].  This is the test
    [isinstance(e, RiotAuthenticationError)] of an [except] clause. *)
Definition is_RiotAuthenticationError (e : exn) : bool :=
  match e with
  | RiotAuthenticationError _ => true
  | _ => false
  end.

(** The outcome of a call: a returned value or a raised exception. *)
Inductive outcome (A : Type) : Type :=
| Return (a : A)
| Raise (e : exn).
Arguments Return {A} a.
Arguments Raise {A} e.

Definition obind {A B} (m : outcome A) (k : A -> outcome B) : outcome B :=
  match m with
  | Return a => k a
  | Raise e => Raise e
  end.

Declare Scope outcome_scope.
Delimit Scope outcome_scope with outcome.
Notation "'let?' x := m 'in' k" := (obind m (fun x => k))
  (at level 10, x pattern, m at level 100, k at level 200) : outcome_scope.
Open Scope outcome_scope.

(** [[f(x) for x in xs]] where [f] may raise. *)
Fixpoint comprehension {A B} (f : A -> outcome B) (xs : list A)
  : outcome (list B) :=
  match xs with
  | [] => Return []
  | x :: rest =>
      let? y := f x in
      let? ys := comprehension f rest in
      Return (y :: ys)
  end.

(** ** Operations on values *)

(** [v == "lit"] for a string literal. *)
Definition eq_str (v : value) (lit : string) : bool :=
  match v with
  | VStr s => String.eqb s lit
  | _ => false
  end.

Fixpoint assoc (key : string) (d : list (string * value)) : option value :=
  match d with
  | [] => None
  | (k, v) :: rest => if String.eqb k key then Some v else assoc key rest
  end.

(** [data[key]]: [KeyError] on a dict without the key, [TypeError] on a
    value that cannot be indexed by a string. *)
Definition getitem (data : value) (key : string) : outcome value :=
  match data with
  | VDict d =>
      match assoc key d with
      | Some v => Return v
      | None => Raise (KeyError key)
      end
  | _ => Raise TypeError
  end.

(** [d.get(key)] on a dict: [None] when the key is absent. *)
Definition dict_get (d : list (string * value)) (key : string) : value :=
  match assoc key d with
  | Some v => v
  | None => VNone
  end.

(** [data.get(key)]: only a dict has the method. *)
Definition get (data : value) (key : string) : outcome value :=
  match data with
  | VDict d => Return (dict_get d key)
  | _ => Raise AttributeError
  end.

(** [key in data.keys()]. *)
Definition in_keys (key : string) (data : value) : outcome bool :=
  match data with
  | VDict d => Return (bool_decide (is_Some (assoc key d)))
  | _ => Raise AttributeError
  end.

(** [bool(s)] of a string. *)
Definition truthy (s : string) : bool :=
  match s with
  | EmptyString => false
  | String _ _ => true
  end.

(** ** Strings *)

(** [s.split(sep)] for a one-character separator. *)
Fixpoint split (sep : ascii) (s : string) : list string :=
  match s with
  | EmptyString => [EmptyString]
  | String c rest =>
      if Ascii.eqb c sep then EmptyString :: split sep rest
      else match split sep rest with
           | [] => [String c EmptyString]
           | seg :: segs => String c seg :: segs
           end
  end.

(** [sep.join(parts)]. *)
Definition join (sep : string) (parts : list string) : string :=
  String.concat sep parts.

(** [l[i]] on a list. *)
Definition list_getitem {A} (l : list A) (i : nat) : outcome A :=
  match nth_error l i with
  | Some x => Return x
  | None => Raise IndexError
  end.

Definition code (c : ascii) : Z := Z.of_N (N_of_ascii c).

(** [s.encode('ascii')] as [base64._bytes_from_decode_data] wraps it: a
    code point above 127 makes it raise [ValueError]. *)
Fixpoint encode_ascii (s : string) : outcome (list Z) :=
  match s with
  | EmptyString => Return []
  | String c rest =>
      if code c <? 128
      then let? bs := encode_ascii rest in Return (code c :: bs)
      else Raise ValueError
  end.

(** ** base64.urlsafe_b64decode *)

(** [binascii]'s decoding table: the 6-bit value of a base64 character, and
    a value above 63 for every other byte. *)
Definition table_a2b_base64 (c : Z) : Z :=
  if (65 <=? c) && (c <=? 90) then c - 65          (* A-Z: 0..25 *)
  else if (97 <=? c) && (c <=? 122) then c - 71    (* a-z: 26..51 *)
  else if (48 <=? c) && (c <=? 57) then c + 4      (* 0-9: 52..61 *)
  else if c =? 43 then 62                          (* + *)
  else if c =? 47 then 63                          (* / *)
  else 255.

Definition BASE64_PAD : Z := 61.

(** A store into an [unsigned char]. *)
Definition uchar (z : Z) : Z := Z.land z 255.

(** The loop of [binascii.a2b_base64] (CPython 3.11, Modules/binascii.c)
    with [strict_mode] off, as [base64.b64decode] calls it with
    [validate=False].  [quad_pos] counts the
    data characters of the current group of four, [leftchar] holds the bits
    not yet written, [pads] counts the padding characters seen since the last
    data character.  A padding sequence that completes a group ends the
    decoding; any other padding character, and any byte outside the alphabet,
    is skipped. *)
Fixpoint a2b_base64_loop (ascii_data : list Z) (quad_pos leftchar pads : Z)
    (bin_data : list Z) : outcome (list Z) :=
  match ascii_data with
  | [] =>
      if quad_pos =? 0 then Return bin_data
      else Raise binascii_Error
  | this_ch :: rest =>
      if this_ch =? BASE64_PAD then
        if 2 <=? quad_pos then
          let pads := pads + 1 in
          if 4 <=? quad_pos + pads then Return bin_data
          else a2b_base64_loop rest quad_pos leftchar pads bin_data
        else a2b_base64_loop rest quad_pos leftchar pads bin_data
      else
        let this_ch := table_a2b_base64 this_ch in
        if 64 <=? this_ch then
          a2b_base64_loop rest quad_pos leftchar pads bin_data
        else
          match quad_pos with
          | 0 => a2b_base64_loop rest 1 this_ch 0 bin_data
          | 1 =>
              a2b_base64_loop rest 2 (Z.land this_ch 15) 0
                (bin_data ++ [uchar (Z.lor (Z.shiftl leftchar 2) (Z.shiftr this_ch 4))])
          | 2 =>
              a2b_base64_loop rest 3 (Z.land this_ch 3) 0
                (bin_data ++ [uchar (Z.lor (Z.shiftl leftchar 4) (Z.shiftr this_ch 2))])
          | _ =>
              a2b_base64_loop rest 0 0 0
                (bin_data ++ [uchar (Z.lor (Z.shiftl leftchar 6) this_ch)])
          end
  end.

Definition a2b_base64 (ascii_data : list Z) : outcome (list Z) :=
  a2b_base64_loop ascii_data 0 0 0 [].

(** [bytes.maketrans(b'-_', b'+/')]. *)
Definition _urlsafe_decode_translation (c : Z) : Z :=
  if c =? 45 then 43 else if c =? 95 then 47 else c.

Definition urlsafe_b64decode (s : string) : outcome (list Z) :=
  let? s := encode_ascii s in
  let s := map _urlsafe_decode_translation s in
  a2b_base64 s.

(** *** Standard base64 (RFC 4648, section 4) *)

Definition base64_alphabet : string :=
  "ABCDEFGHIJKLMNOPQRSTUVWXYZabcdefghijklmnopqrstuvwxyz0123456789+/".

Definition table_b2a_base64 (v : Z) : ascii :=
  match String.get (Z.to_nat v) base64_alphabet with
  | Some c => c
  | None => "="%char
  end.

(** The four 6-bit groups of three bytes [a b c]. *)
Definition sextet0 (a : Z) : Z := Z.shiftr a 2.
Definition sextet1 (a b : Z) : Z := Z.lor (Z.shiftl (Z.land a 3) 4) (Z.shiftr b 4).
Definition sextet2 (b c : Z) : Z := Z.lor (Z.shiftl (Z.land b 15) 2) (Z.shiftr c 6).
Definition sextet3 (c : Z) : Z := Z.land c 63.

(** The padded standard encoding of a byte string, as RFC 4648 words it:
    three bytes give four characters, and a last group of one or two bytes is
    completed with zero bits and padded with [=].  The class never encodes;
    this is what "valid padded standard base64" means in the properties of
    the extractor. *)
Fixpoint rfc4648_encode (bs : list Z) : string :=
  match bs with
  | [] => EmptyString
  | [a] =>
      String (table_b2a_base64 (sextet0 a))
     (String (table_b2a_base64 (sextet1 a 0)) "==")
  | [a; b] =>
      String (table_b2a_base64 (sextet0 a))
     (String (table_b2a_base64 (sextet1 a b))
     (String (table_b2a_base64 (sextet2 b 0)) "="))
  | a :: b :: c :: rest =>
      String (table_b2a_base64 (sextet0 a))
     (String (table_b2a_base64 (sextet1 a b))
     (String (table_b2a_base64 (sextet2 b c))
     (String (table_b2a_base64 (sextet3 c)) (rfc4648_encode rest))))
  end.

Definition is_byte (b : Z) : Prop := 0 <= b < 256.

(** [s.encode()] of an ASCII literal, for examples. *)
Definition bytes_of (s : string) : list Z := map code (list_ascii_of_string s).

(** ** The environment *)

Definition CookieJar := gmap string string.

Inductive TLSVersion : Type := SSLv3 | TLSv1 | TLSv1_1 | TLSv1_2 | TLSv1_3.

(** What an [ssl.SSLContext] is configured with.  The last three fields are
    the lists the native [SSL_CTX] holds, by name and in order of preference:
    the TLS 1.3 suites, the older suites, and the signature algorithms. *)
Record SSLContext : Type := mkSSLContext {
  minimum_version : TLSVersion;
  alpn_protocols : list string;
  options : Z;
  ciphersuites : list string;
  cipher_list : list string;
  sigalgs_list : list string;
}.

(** The [libssl] that [ctypes.CDLL] loads.  Its setters read a
    colon-separated list of names and put into the [SSL_CTX] what the
    library's own tables have. *)
Record Libssl : Type := mkLibssl {
  (* the TLS 1.3 suites it knows, by standard name *)
  has_ciphersuite : string -> bool;
  (* the older suites its cipher table holds *)
  has_cipher : string -> bool;
  (* the signature algorithms it knows *)
  has_sigalg : string -> bool;
  (* whether it refuses a TLS 1.3 list that holds a name it does not know,
     as older releases do; OpenSSL 3.0 skips the name *)
  refuses_unknown_ciphersuite : bool;
}.

Inductive Method : Type := POST | PUT.

(** One request as it leaves the client session: [jar] is the cookie store
    the session reads its cookies from when the request is sent. *)
Record Request : Type := mkRequest {
  method : Method;
  url : string;
  json : value;
  headers : list (string * string);
  jar : CookieJar;
  ssl : SSLContext;
}.

(** The provider's answer: the cookies it sets and what [await r.json()]
    gives, or the error the client raises ([raise_for_status=True]). *)
Record Reply : Type := mkReply {
  set_cookies : CookieJar;
  body : result value client_error;
}.

Inductive lib_error : Type := LibTypeError | LibAttributeError | LibValueError.

Definition exn_of_lib (e : lib_error) : exn :=
  match e with
  | LibTypeError => TypeError
  | LibAttributeError => AttributeError
  | LibValueError => ValueError
  end.

(** Everything outside the module: the host the interpreter runs on, the
    library functions that are taken as given, and the provider. *)
Record Env : Type := mkEnv {
  (* sys.platform *)
  sys_platform : string;
  (* ssl._ssl.__file__ *)
  ssl_file : string;
  (* whether ctypes.CDLL(name) finds the library *)
  CDLL : string -> bool;
  (* the library it loads then *)
  installed_libssl : Libssl;
  (* ssl.create_default_context() *)
  create_default_context : SSLContext;
  (* json.loads(bytes) *)
  json_loads : list Z -> result value json_error;
  (* parse_qsl(getattr(urlsplit(uri), mode)) *)
  parse_qsl_of : value -> value -> result (list (string * string)) lib_error;
  (* str(v), as an f-string formats a value *)
  str : value -> string;
  (* secrets.token_urlsafe(16) *)
  token_urlsafe : string;
  (* input(prompt) *)
  input : string -> string;
  (* the provider behind the session's transport *)
  send : Request -> Reply;
  (* whether open(path, "w") succeeds *)
  writable : string -> bool;
}.

(** ** Class constants *)

Definition RIOT_CLIENT_USER_AGENT (arg : string) : string :=
  "RiotClient/62.0.1.4852117.4789131 " +:+ arg +:+ " (Windows;10;;Professional, x64)".

Definition CIPHERS13_names : list string :=
  [ "TLS_CHACHA20_POLY1305_SHA256";
    "TLS_AES_128_GCM_SHA256";
    "TLS_AES_256_GCM_SHA384" ].

Definition CIPHERS_names : list string :=
  [ "ECDHE-ECDSA-CHACHA20-POLY1305";
    "ECDHE-RSA-CHACHA20-POLY1305";
    "ECDHE-ECDSA-AES128-GCM-SHA256";
    "ECDHE-RSA-AES128-GCM-SHA256";
    "ECDHE-ECDSA-AES256-GCM-SHA384";
    "ECDHE-RSA-AES256-GCM-SHA384";
    "ECDHE-ECDSA-AES128-SHA";
    "ECDHE-RSA-AES128-SHA";
    "ECDHE-ECDSA-AES256-SHA";
    "ECDHE-RSA-AES256-SHA";
    "AES128-GCM-SHA256";
    "AES256-GCM-SHA384";
    "AES128-SHA";
    "AES256-SHA";
    "DES-CBC3-SHA" ].

Definition SIGALGS_names : list string :=
  [ "ecdsa_secp256r1_sha256";
    "rsa_pss_rsae_sha256";
    "rsa_pkcs1_sha256";
    "ecdsa_secp384r1_sha384";
    "rsa_pss_rsae_sha384";
    "rsa_pkcs1_sha384";
    "rsa_pss_rsae_sha512";
    "rsa_pkcs1_sha512";
    "rsa_pkcs1_sha1" ].

Definition CIPHERS13 : string := join ":" CIPHERS13_names.
Definition CIPHERS : string := join ":" CIPHERS_names.
Definition SIGALGS : string := join ":" SIGALGS_names.

(** ** create_riot_auth_ssl_ctx *)

Definition startswith (prefix s : string) : bool := String.prefix prefix s.

(** The three setters of [libssl], on a list of names without repetition
    (as the class constants are).  Each returns 1 or 0, which the class does
    not read: only the effect on the [SSL_CTX] is modelled.

    [SSL_CTX_set_ciphersuites] takes the names the library knows; the call
    fails and leaves the list as it was when none is left, or when the
    library refuses unknown names and there is one.  The empty string sets
    the empty list. *)
Definition SSL_CTX_set_ciphersuites (lib : Libssl) (ctx : SSLContext) (s : string)
  : SSLContext :=
  let names := if String.eqb s "" then [] else split ":" s in
  let known := List.filter (has_ciphersuite lib) names in
  if (refuses_unknown_ciphersuite lib && negb (forallb (has_ciphersuite lib) names))
     || (negb (String.eqb s "") && (length known =? 0)%nat)
  then ctx
  else mkSSLContext (minimum_version ctx) (alpn_protocols ctx) (options ctx)
         known (cipher_list ctx) (sigalgs_list ctx).

(** [SSL_CTX_set_cipher_list] skips the names the library's table does not
    hold and replaces the list of older suites by the rest, also when
    nothing is left (the call then returns 0). *)
Definition SSL_CTX_set_cipher_list (lib : Libssl) (ctx : SSLContext) (s : string)
  : SSLContext :=
  mkSSLContext (minimum_version ctx) (alpn_protocols ctx) (options ctx)
    (ciphersuites ctx) (List.filter (has_cipher lib) (split ":" s)) (sigalgs_list ctx).

Definition SSL_CTRL_SET_SIGALGS_LIST : Z := 98.

(** [SSL_CTX_ctrl(ctx, cmd, larg, parg)]: of the commands only the one the
    class issues is modelled; any other leaves the profile as it is.
    Setting the signature algorithms fails, and leaves the list as it was,
    when the library does not know one of the names. *)
Definition SSL_CTX_ctrl (lib : Libssl) (ctx : SSLContext) (cmd larg : Z) (parg : string)
  : SSLContext :=
  if cmd =? SSL_CTRL_SET_SIGALGS_LIST
  then
    let names := split ":" parg in
    if forallb (has_sigalg lib) names
    then mkSSLContext (minimum_version ctx) (alpn_protocols ctx) (options ctx)
           (ciphersuites ctx) (cipher_list ctx) names
    else ctx
  else ctx.

Definition set_minimum_version (ctx : SSLContext) (v : TLSVersion) : SSLContext :=
  mkSSLContext v (alpn_protocols ctx) (options ctx)
    (ciphersuites ctx) (cipher_list ctx) (sigalgs_list ctx).

Definition set_alpn_protocols (ctx : SSLContext) (l : list string) : SSLContext :=
  mkSSLContext (minimum_version ctx) l (options ctx)
    (ciphersuites ctx) (cipher_list ctx) (sigalgs_list ctx).

Definition set_options (ctx : SSLContext) (o : Z) : SSLContext :=
  mkSSLContext (minimum_version ctx) (alpn_protocols ctx) o
    (ciphersuites ctx) (cipher_list ctx) (sigalgs_list ctx).

(** [ctypes.CDLL(name)]: [OSError] when the library is not found. *)
Definition load_library (E : Env) (name : string) : outcome Libssl :=
  if CDLL E name then Return (installed_libssl E) else Raise OSError.

Definition create_riot_auth_ssl_ctx (E : Env) : outcome SSLContext :=
  let ssl_ctx := create_default_context E in
  let? libssl :=
    if startswith "win32" (sys_platform E) then load_library E "libssl-1_1.dll"
    else if startswith "linux" (sys_platform E) || startswith "darwin" (sys_platform E)
    then load_library E (ssl_file E)
    else Raise NotImplementedError in
  let ssl_ctx := set_minimum_version ssl_ctx TLSv1 in
  let ssl_ctx := set_alpn_protocols ssl_ctx ["http/1.1"] in
  let ssl_ctx := set_options ssl_ctx (Z.lor (options ssl_ctx) (Z.shiftl 1 19)) in
  let ssl_ctx := SSL_CTX_set_ciphersuites libssl ssl_ctx CIPHERS13 in
  let ssl_ctx := SSL_CTX_set_cipher_list libssl ssl_ctx CIPHERS in
  let ssl_ctx := SSL_CTX_ctrl libssl ssl_ctx 98 0 SIGALGS in
  Return ssl_ctx.

(** ** The session object *)

(** An instance of [RiotAuth].  The two private attributes are typed; every
    other entry of the instance's [__dict__] lives in [attrs]. *)
Record RiotAuth : Type := mkRiotAuth {
  _auth_ssl_ctx : SSLContext;
  _cookie_jar : CookieJar;
  attrs : gmap string value;
}.

Inductive File : Type :=
| Pickled (cookies : CookieJar)     (* pickle.dump(jar._cookies, f) *)
| Dumped (v : value).               (* json.dump(v, f) *)

(** What a call can read and change: the instance, the requests sent so far
    (oldest first) and the files written. *)
Record State : Type := mkState {
  self : RiotAuth;
  sent : list Request;
  files : gmap string File;
}.

(** A method body: it ends with a value or an exception, and either way
    leaves a state behind. *)
Definition M (A : Type) : Type := State -> outcome A * State.

Definition ret {A} (a : A) : M A := fun st => (Return a, st).

Definition raise {A} (e : exn) : M A := fun st => (Raise e, st).

Definition bind {A B} (m : M A) (k : A -> M B) : M B :=
  fun st =>
    match m st with
    | (Return a, st') => k a st'
    | (Raise e, st') => (Raise e, st')
    end.

Definition lift {A} (o : outcome A) : M A := fun st => (o, st).

Definition get_self : M RiotAuth := fun st => (Return (self st), st).

Definition put_self (s : RiotAuth) : M unit :=
  fun st => (Return tt, mkState s (sent st) (files st)).

(** [try: body / except RiotAuthenticationError: handler]. *)
Definition try_except_RiotAuthenticationError {A} (body handler : M A) : M A :=
  fun st =>
    match body st with
    | (Return a, st') => (Return a, st')
    | (Raise e, st') =>
        if is_RiotAuthenticationError e then handler st' else (Raise e, st')
    end.

Declare Scope M_scope.
Delimit Scope M_scope with M.
Notation "'do' x <- m ; k" := (bind m (fun x => k))
  (at level 10, x pattern, m at level 100, k at level 200) : M_scope.
Open Scope M_scope.

(** [self.name] for a public attribute. *)
Definition getattr (s : RiotAuth) (name : string) : outcome value :=
  match attrs s !! name with
  | Some v => Return v
  | None => Raise AttributeError
  end.

(** [self.name = v] for a public attribute. *)
Definition setattr (s : RiotAuth) (name : string) (v : value) : RiotAuth :=
  mkRiotAuth (_auth_ssl_ctx s) (_cookie_jar s) (<[name := v]> (attrs s)).

(** [self.__dict__.keys()]. *)
Definition dict_keys (s : RiotAuth) : list string :=
  "_auth_ssl_ctx" :: "_cookie_jar" :: (map_to_list (attrs s)).*1.

(** [self.__dict__.update(items)]: the items are written in order.  Every
    caller filters the items down to public keys first. *)
Definition dict_update (s : RiotAuth) (items : list (string * value)) : RiotAuth :=
  fold_left (fun s kv => setattr s kv.1 kv.2) items s.

(** [key[0] != "_"]. *)
Definition not_underscore (key : string) : outcome bool :=
  match key with
  | EmptyString => Raise IndexError
  | String c _ => Return (negb (Ascii.eqb c "_"))
  end.

(** [[x for x in xs if cond(x)]] where [cond] may raise. *)
Fixpoint comprehension_if {A} (cond : A -> outcome bool) (xs : list A)
  : outcome (list A) :=
  match xs with
  | [] => Return []
  | x :: rest =>
      let? keep := cond x in
      let? ys := comprehension_if cond rest in
      Return (if keep then x :: ys else ys)
  end.

(** The argument bound to [key_attr_pairs]: a sequence of pairs, or, when a
    caller's [**kwargs] carries the name, a string. *)
Inductive key_attr_arg : Type :=
| Pairs (l : list (string * string))
| Chars (s : string).

Definition default_key_attr_pairs : key_attr_arg :=
  Pairs [("sub", "user_id"); ("exp", "expires_at")].

Definition exn_of_json (e : json_error) : exn := JSONError e.

Definition of_result {A E} (f : E -> exn) (r : result A E) : outcome A :=
  match r with
  | Ok a => Return a
  | Error e => Raise (f e)
  end.

Definition in_list (key : string) (l : list string) : bool :=
  bool_decide (key ∈ l).

(** [((key, val) for key, val in items if key in predefined_keys)]. *)
Definition if_predefined (predefined_keys : list string)
    (items : list (string * value)) : list (string * value) :=
  filter (fun kv => in_list kv.1 predefined_keys = true) items.

(** [dict(pairs)]: a later pair replaces an earlier one with the same key. *)
Definition dict_of_pairs (pairs : list (string * string)) : gmap string string :=
  list_to_map (reverse pairs).

Section RiotAuth.

Context (E : Env).

Definition __init__ : outcome RiotAuth :=
  let? ctx := create_riot_auth_ssl_ctx E in
  Return (mkRiotAuth ctx ∅
    (<["access_token" := VNone]>
    (<["scope" := VNone]>
    (<["id_token" := VNone]>
    (<["token_type" := VNone]>
    (<["expires_at" := VInt 0]>
    (<["user_id" := VNone]>
    (<["entitlements_token" := VNone]>
    (<["accdict" := VNone]> ∅))))))))).

Definition __get_keys_from_access_token (s : RiotAuth)
    (key_attr_pairs : key_attr_arg) : outcome (list (string * value)) :=
  let? access_token := getattr s "access_token" in
  let? segments :=
    match access_token with
    | VStr token => Return (split "." token)
    | _ => Raise AttributeError
    end in
  let? payload := list_getitem segments 1 in
  let? decoded := urlsafe_b64decode (payload +:+ "===") in
  let? temp_dict := of_result exn_of_json (json_loads E decoded) in
  match key_attr_pairs with
  | Pairs l =>
      comprehension
        (fun '(key, attr) => let? v := get temp_dict key in Return (attr, v)) l
  | Chars cs =>
      (* [for key, attr in "..."]: a one-character string does not unpack *)
      comprehension (fun _ => Raise ValueError) (list_ascii_of_string cs)
  end.

Definition predefined_keys (s : RiotAuth) : outcome (list string) :=
  comprehension_if not_underscore (dict_keys s).

Definition __update (s : RiotAuth) (extract_jwt : bool)
    (key_attr_pairs : key_attr_arg) (kwargs : gmap string string)
  : outcome unit * RiotAuth :=
  match predefined_keys s with
  | Raise e => (Raise e, s)
  | Return predefined_keys =>
      let s :=
        dict_update s
          (if_predefined predefined_keys (map_to_list (VStr <$> kwargs))) in
      if extract_jwt then
        match __get_keys_from_access_token s key_attr_pairs with
        | Raise e => (Raise e, s)
        | Return additional_data =>
            (Return tt,
             dict_update s (if_predefined predefined_keys additional_data))
        end
      else (Return tt, s)
  end.

(** The call [self.__update(extract_jwt=True, **data)]: a key of [data]
    named like a parameter is bound to that parameter, and one that is
    already bound makes the call itself raise [TypeError]. *)
Definition call___update (s : RiotAuth) (data : gmap string string)
  : outcome unit * RiotAuth :=
  if bool_decide (is_Some (data !! "self")) || bool_decide (is_Some (data !! "extract_jwt"))
  then (Raise TypeError, s)
  else
    let key_attr_pairs :=
      match data !! "key_attr_pairs" with
      | Some cs => Chars cs
      | None => default_key_attr_pairs
      end in
    __update s true key_attr_pairs (delete "key_attr_pairs" data).

(** Lines 155-159 of [__set_tokens_from_uri]: the key/value map read from
    the component of the redirect URI that [mode] names. *)
Definition redirect_pairs (data : value) : outcome (gmap string string) :=
  let? response := getitem data "response" in
  let? mode := getitem response "mode" in
  let? response := getitem data "response" in
  let? parameters := getitem response "parameters" in
  let? uri := getitem parameters "uri" in
  let? result := of_result exn_of_lib (parse_qsl_of E uri mode) in
  Return (dict_of_pairs result).

Definition __set_tokens_from_uri (s : RiotAuth) (data : value)
  : outcome unit * RiotAuth :=
  match redirect_pairs data with
  | Raise e => (Raise e, s)
  | Return data => call___update s data
  end.

(** [d[key] = v] on a dict kept in insertion order. *)
Fixpoint setitem {V} (d : list (string * V)) (key : string) (v : V)
  : list (string * V) :=
  match d with
  | [] => [(key, v)]
  | (k, v') :: rest =>
      if String.eqb k key then (k, v) :: rest
      else (k, v') :: setitem rest key v
  end.

(** [headers.get(name)], for reading a trace. *)
Definition assoc_header (name : string) (req : Request) : option string :=
  snd <$> find (fun kv => String.eqb kv.1 name) (headers req).

(** [self._cookie_jar.clear()]. *)
Definition cookie_jar_clear : M unit :=
  fun st =>
    let s := self st in
    (Return tt,
     mkState (mkRiotAuth (_auth_ssl_ctx s) ∅ (attrs s)) (sent st) (files st)).

(** One [async with session.post(...)/put(...) as r: await r.json()].  The
    client session was built on [self._cookie_jar] and [self._auth_ssl_ctx]:
    the request is sent from that jar, and the cookies of the reply are
    stored in it before the status is checked. *)
Definition request_of (method : Method) (url : string) (json : value)
    (headers : list (string * string)) (st : State) : Request :=
  mkRequest method url json headers
    (_cookie_jar (self st)) (_auth_ssl_ctx (self st)).

Definition received (req : Request) (reply : Reply) (st : State) : State :=
  let s := self st in
  mkState
    (mkRiotAuth (_auth_ssl_ctx s) (set_cookies reply ∪ _cookie_jar s) (attrs s))
    (sent st ++ [req]) (files st).

Definition request (method : Method) (url : string) (json : value)
    (headers : list (string * string)) : M value :=
  fun st =>
    let req := request_of method url json headers st in
    let reply := send E req in
    (of_result ClientError (body reply), received req reply st).

(** [with open(path, "w") as f: dump(content, f)]. *)
Definition write_file (path : string) (content : File) : M unit :=
  fun st =>
    if writable E path
    then (Return tt, mkState (self st) (sent st) (<[path := content]> (files st)))
    else (Raise OSError, st).

(** A private helper called on [self]. *)
Definition on_self {A} (f : RiotAuth -> outcome A * RiotAuth) : M A :=
  fun st =>
    let '(r, s) := f (self st) in
    (r, mkState s (sent st) (files st)).

Definition read_attr (name : string) : M value :=
  fun st => (getattr (self st) name, st).

Definition AUTHORIZATION_URL : string :=
  "https://auth.riotgames.com/api/v1/authorization".

Definition ENTITLEMENTS_URL : string :=
  "https://entitlements.auth.riotgames.com/api/token/v1".

(** The branches on the answer to the credentials (lines 221-257): the
    value returned is the [data] the token step will read. *)
Definition authenticate (data : value) (headers : list (string * string))
  : M value :=
  do resp_type <- lift (getitem data "type");
  if eq_str resp_type "response" then ret data
  else if eq_str resp_type "auth" then
    do err <- lift (get data "error");
    if eq_str err "auth_failure" then raise (RiotAuthenticationError err)
    else if eq_str err "rate_limited" then raise RiotRatelimitError
    else raise (RiotUnknownErrorTypeError err)
  else if eq_str resp_type "multifactor" then
    let prompt := "Now wait your email multifactor code and paste it here:" +:+ String "010" "" in
    let multifactorCode := input E prompt in
    let multiFactorBody :=
      VDict [ ("type", VStr "multifactor");
              ("rememberDevice", VStr "true");
              ("code", VStr multifactorCode) ] in
    do data <- request PUT AUTHORIZATION_URL multiFactorBody headers;
    do has_error <- lift (in_keys "error" data);
    do failed <-
      (if has_error
       then do err <- lift (getitem data "error");
            ret (eq_str err "multifactor_attempt_failed")
       else ret false);
    if failed
    then (* the name is bound nowhere in the module *)
         raise (NameError "RiotMultifactorAttemptError")
    else ret data
  else raise (RiotUnknownResponseTypeError resp_type).

(** The request headers of a run (lines 175-180). *)
Definition initial_headers : list (string * string) :=
  [ ("Accept-Encoding", "deflate, gzip, zstd");
    ("user-agent", RIOT_CLIENT_USER_AGENT "rso-auth");
    ("Cache-Control", "no-cache");
    ("Accept", "application/json") ].

(** The first half of [authorize] (lines 168-258): the exchange with the
    provider up to the answer that carries the redirect.  It returns the
    [data] the second half reads. *)
Definition negotiate (username password : string)
    (use_query_response_mode : bool) : M value :=
  do _ <- (if truthy username && truthy password
           then cookie_jar_clear else ret tt);
  let headers := initial_headers in
  let body :=
    [ ("acr_values", VStr "");
      ("claims", VStr "");
      ("client_id", VStr "riot-client");
      ("code_challenge", VStr "");
      ("code_challenge_method", VStr "");
      ("nonce", VStr (token_urlsafe E));
      ("redirect_uri", VStr "http://localhost/redirect");
      ("response_type", VStr "token id_token");
      ("scope", VStr "openid link ban lol_region account") ] in
  let body :=
    if use_query_response_mode
    then setitem body "response_mode" (VStr "query") else body in
  do data <- request POST AUTHORIZATION_URL (VDict body) headers;
  do resp_type <- lift (getitem data "type");
  if negb (eq_str resp_type "response") then
    let body :=
      VDict [ ("language", VStr "en_US");
              ("password", VStr password);
              ("region", VNone);
              ("remember", VBool true);
              ("type", VStr "auth");
              ("username", VStr username) ] in
    do data <- request PUT AUTHORIZATION_URL body headers;
    authenticate data headers
  else ret data.

(** The second half of [authorize] (lines 261-281): the tokens of the
    redirect, then the entitlements token. *)
Definition finish (data : value) : M unit :=
  let headers := initial_headers in
  (* self._cookie_jar = session.cookie_jar: the same object *)
  do _ <- on_self (fun s => __set_tokens_from_uri s data);
  do s <- get_self;
  do _ <- write_file "auth_cookies.pkl" (Pickled (_cookie_jar s));
  do token_type <- read_attr "token_type";
  do access_token <- read_attr "access_token";
  let headers :=
    setitem headers "Authorization"
      (str E token_type +:+ " " +:+ str E access_token) in
  let headers := setitem headers "user-agent" (RIOT_CLIENT_USER_AGENT "entitlements") in
  do data <- request POST ENTITLEMENTS_URL (VDict []) headers;
  do entitlements_token <- lift (getitem data "entitlements_token");
  do s <- get_self;
  do _ <- put_self (setattr s "entitlements_token" entitlements_token);
  do access_token <- read_attr "access_token";
  do scope <- read_attr "scope";
  do id_token <- read_attr "id_token";
  do token_type <- read_attr "token_type";
  do expires_at <- read_attr "expires_at";
  do user_id <- read_attr "user_id";
  do entitlements_token <- read_attr "entitlements_token";
  let accdict :=
    VDict [ ("AccessToken", access_token);
            ("Scope", scope);
            ("IDToken", id_token);
            ("TokenType", token_type);
            ("ExpiresAt", expires_at);
            ("UserID", user_id);
            ("EntitlementsToken", entitlements_token) ] in
  do s <- get_self;
  do _ <- put_self (setattr s "accdict" accdict);
  write_file "accountData.json" (Dumped accdict).

Definition authorize (username password : string)
    (use_query_response_mode : bool) : M unit :=
  do data <- negotiate username password use_query_response_mode;
  finish data.

Definition reauthorize : M bool :=
  try_except_RiotAuthenticationError
    (do _ <- authorize "" "" false; ret true)
    (ret false).

End RiotAuth.

(** ** The vocabulary of the properties *)

(** *** Ranges of integers *)

Definition below (n : nat) : list Z := map Z.of_nat (seq 0 n).

Definition in_sextet (v : Z) : bool := (0 <=? v) && (v <? 64).

(** *** Hosts and attributes *)

(** The host is one the builder supports: Windows with [libssl-1_1.dll], or
    Linux or macOS with the library behind the [ssl] module. *)
Definition supported (E : Env) : Prop :=
  (startswith "win32" (sys_platform E) = true /\ CDLL E "libssl-1_1.dll" = true) \/
  (startswith "win32" (sys_platform E) = false /\
   startswith "linux" (sys_platform E) || startswith "darwin" (sys_platform E) = true /\
   CDLL E (ssl_file E) = true).

(** A name that the allow-list admits. *)
Definition is_public (key : string) : bool :=
  match key with
  | EmptyString => false
  | String c _ => negb (Ascii.eqb c "_")
  end.

(** The seven session fields that hold the tokens. *)
Definition token_fields : list string :=
  [ "access_token"; "scope"; "id_token"; "token_type"; "expires_at";
    "user_id"; "entitlements_token" ].

(** An attribute holds a value other than [None] and the empty string. *)
Definition is_set (s : RiotAuth) (name : string) : Prop :=
  exists v, attrs s !! name = Some v /\ v <> VNone /\ v <> VStr "".

(** *** Exceptions *)

(** The errors of the credential stage. *)
Definition is_credential_error (e : exn) : bool :=
  match e with
  | RiotAuthenticationError _ | RiotRatelimitError
  | RiotUnknownErrorTypeError _ | RiotUnknownResponseTypeError _ => true
  | _ => false
  end.

Definition benign (e : exn) : Prop := is_credential_error e = false.

(** [raises B o]: if [o] is an exception, it is one of [B]. *)
Definition raises {A} (B : exn -> Prop) (o : outcome A) : Prop :=
  forall e, o = Raise e -> B e.

(** What the decoder can raise. *)
Definition is_decode_error (e : exn) : Prop := e = ValueError \/ e = binascii_Error.

(** The middle segment makes the decoder raise, or decodes to bytes that
    [json.loads] rejects; [e] is the exception. *)
Definition extraction_fails (E : Env) (payload : string) (e : exn) : Prop :=
  urlsafe_b64decode (payload +:+ "===") = Raise e \/
  exists bs je,
    urlsafe_b64decode (payload +:+ "===") = Return bs /\
    json_loads E bs = Error je /\
    e = JSONError je.

(** *** States *)

(** [guarantees R B m]: from any state, [m] leaves a state related to it by
    [R], and an exception it raises is one of [B]. *)
Definition guarantees {A} (R : State -> State -> Prop) (B : exn -> Prop)
    (m : M A) : Prop :=
  forall st, R st (m st).2 /\ raises B (m st).1.

(** The three relations between the state before and after. *)
Definition same_attrs (st st' : State) : Prop :=
  attrs (self st') = attrs (self st).

Definition trace_grows (st st' : State) : Prop :=
  exists rest, sent st' = (sent st ++ rest)%list.

Definition any_state (st st' : State) : Prop := True.

Definition any_exn (e : exn) : Prop := True.

(** *** The provider *)

(** The requests of the protocol, and a provider that gives one answer to
    every request of a kind: a mocked answer. *)
Definition is_initiation (req : Request) : Prop :=
  method req = POST /\ url req = AUTHORIZATION_URL.

Definition is_credentials (req : Request) : Prop :=
  method req = PUT /\ getitem (json req) "type" = Return (VStr "auth").

Definition is_multifactor (req : Request) : Prop :=
  method req = PUT /\ getitem (json req) "type" = Return (VStr "multifactor").

Definition answers (E : Env) (kind : Request -> Prop) (data : value) : Prop :=
  forall req, kind req -> body (send E req) = Ok data.

(** ** A scripted environment *)

(** A Linux host with a provider that answers from a script, for running the
    class on concrete inputs.  Its library functions are tables and
    restrictions of the real ones: they agree with the library on the
    arguments the examples below pass. *)
Module Sample.

(** [json.loads] on two payloads: [{}] and
    [{"sub":"u-1","exp":1700000000}]. *)
Definition empty_object : list Z := [123; 125].

Definition claims_object : list Z :=
  [123; 34; 115; 117; 98; 34; 58; 34; 117; 45; 49; 34; 44; 34; 101; 120;
   112; 34; 58; 49; 55; 48; 48; 48; 48; 48; 48; 48; 48; 125].

Definition claims : list (string * value) :=
  [("sub", VStr "u-1"); ("exp", VInt 1700000000)].

Definition json_loads (bs : list Z) : result value json_error :=
  if bool_decide (bs = empty_object) then Ok (VDict [])
  else if bool_decide (bs = claims_object) then Ok (VDict claims)
  else Error JSONDecodeError.

(** [parse_qsl] on a component without escapes: the [name=value] pieces
    between [&], those with a blank value left out. *)
Definition parse_qsl (qs : string) : list (string * string) :=
  omap (fun piece =>
          match split "=" piece with
          | name :: v :: vs =>
              let v := join "=" (v :: vs) in
              if truthy v then Some (name, v) else None
          | _ => None
          end)
       (split "&" qs).

(** The [fragment] and [query] attributes of [urlsplit(uri)]. *)
Definition fragment (uri : string) : string :=
  match split "#" uri with
  | _ :: rest => join "#" rest
  | [] => ""
  end.

Definition query (uri : string) : string :=
  match split "#" uri with
  | before :: _ =>
      match split "?" before with
      | _ :: rest => join "?" rest
      | [] => ""
      end
  | [] => ""
  end.

Definition parse_qsl_of (uri mode : value)
  : result (list (string * string)) lib_error :=
  match uri, mode with
  | VStr uri, VStr mode =>
      if String.eqb mode "fragment" then Ok (parse_qsl (fragment uri))
      else if String.eqb mode "query" then Ok (parse_qsl (query uri))
      else Error LibAttributeError
  | _, _ => Error LibTypeError
  end.

(** [str] on [None], booleans and strings. *)
Definition str (v : value) : string :=
  match v with
  | VNone => "None"
  | VBool true => "True"
  | VBool false => "False"
  | VStr s => s
  | _ => ""
  end.

(** The default context: of the library's default lists only the TLS 1.3
    suites are written out. *)
Definition default_context : SSLContext :=
  mkSSLContext TLSv1_2 [] 0
    [ "TLS_AES_256_GCM_SHA384"; "TLS_CHACHA20_POLY1305_SHA256";
      "TLS_AES_128_GCM_SHA256" ] [] [].

(** A default build of OpenSSL 3.0, asked about the names of the class
    constants: it has them all but [DES-CBC3-SHA]. *)
Definition openssl3 : Libssl :=
  mkLibssl (fun name => in_list name CIPHERS13_names)
           (fun name => in_list name CIPHERS_names &&
                        negb (String.eqb name "DES-CBC3-SHA"))
           (fun name => in_list name SIGALGS_names)
           false.

(** The provider: one scripted answer per step of the protocol. *)
Record Script : Type := mkScript {
  initiation : Reply;
  credentials : Reply;
  multifactor : Reply;
  entitlements : Reply;
}.

Definition provider (script : Script) (req : Request) : Reply :=
  match method req with
  | POST =>
      if String.eqb (url req) AUTHORIZATION_URL
      then initiation script else entitlements script
  | PUT =>
      match getitem (json req) "type" with
      | Return t => if eq_str t "auth" then credentials script else multifactor script
      | Raise _ => multifactor script
      end
  end.

Definition env (script : Script) : Env :=
  mkEnv "linux" "/usr/lib/python3.11/lib-dynload/_ssl.so" (fun _ => true)
    openssl3 default_context json_loads parse_qsl_of str
    "mHq1xV5sXo0aK3tnGzQy7A" (fun _ => "123456") (provider script)
    (fun _ => true).

Definition answer (data : value) : Reply := mkReply ∅ (Ok data).

Definition redirect (mode uri : string) : value :=
  VDict [ ("type", VStr "response");
          ("response",
           VDict [ ("mode", VStr mode);
                   ("parameters", VDict [("uri", VStr uri)]) ]) ].

Definition auth_error (err : string) : value :=
  VDict [("type", VStr "auth"); ("error", VStr err)].

Definition challenge : value := VDict [("type", VStr "auth")].

Definition entitled : value := VDict [("entitlements_token", VStr "ent-1")].

(** A token whose payload is the standard base64 of [claims_object]. *)
Definition token : string := "h.eyJzdWIiOiJ1LTEiLCJleHAiOjE3MDAwMDAwMDB9.s".

Definition uri : string :=
  "http://localhost/redirect#access_token=" +:+ token +:+
  "&scope=openid&id_token=idt&token_type=Bearer&expires_in=3600".

Definition script_ok : Script :=
  mkScript (answer challenge) (answer (redirect "fragment" uri))
           (answer VNone) (answer entitled).

(** A fresh instance, as [RiotAuth()] builds it on this host. *)
Definition fresh : RiotAuth :=
  match __init__ (env script_ok) with
  | Return s => s
  | Raise _ => mkRiotAuth default_context ∅ ∅
  end.

Definition start (s : RiotAuth) : State := mkState s [] ∅.

(** The provider rejects the credentials. *)
Definition script_auth_failure : Script :=
  mkScript (answer challenge) (answer (auth_error "auth_failure"))
           (answer VNone) (answer entitled).

(** The provider asks for a multifactor code and rejects it. *)
Definition script_multifactor_failed : Script :=
  mkScript (answer challenge)
           (answer (VDict [("type", VStr "multifactor")]))
           (answer (VDict [("error", VStr "multifactor_attempt_failed")]))
           (answer entitled).

(** The provider redirects at once, to the given URI. *)
Definition script_redirect (uri : string) : Script :=
  mkScript (answer (redirect "fragment" uri)) (answer VNone)
           (answer VNone) (answer entitled).

(** A redirect whose access token has the one-character payload [a]. *)
Definition uri_short_payload : string :=
  "http://localhost/redirect#access_token=h.a.s&token_type=Bearer".

(** A redirect that carries an access token and no [token_type]. *)
Definition uri_without_token_type : string :=
  "http://localhost/redirect#access_token=h.e30.s".

End Sample.

(** * Properties *)

(** ** base64: decoding what the standard encoder wrote *)

Lemma range_forallb (n : nat) (P : Z -> bool) :
  forallb P (below n) = true ->
  forall z, 0 <= z < Z.of_nat n -> P z = true.
Proof.
  intros H z Hz. rewrite forallb_forall in H. apply H.
  apply in_map_iff. exists (Z.to_nat z). split; [lia|].
  apply in_seq. lia.
Qed.

Lemma table_roundtrip v :
  0 <= v < 64 ->
  (code (table_b2a_base64 v) <? 128) = true /\
  (code (table_b2a_base64 v) =? BASE64_PAD) = false /\
  table_a2b_base64 (_urlsafe_decode_translation (code (table_b2a_base64 v))) = v.
Proof.
  intros Hv.
  pose proof (range_forallb 64
    (fun v => (code (table_b2a_base64 v) <? 128)
              && negb (code (table_b2a_base64 v) =? BASE64_PAD)
              && (table_a2b_base64 (_urlsafe_decode_translation (code (table_b2a_base64 v))) =? v))
    eq_refl v Hv) as H.
  simpl in H. apply andb_prop in H as [H H3]. apply andb_prop in H as [H1 H2].
  repeat split; [done | by apply negb_true_iff | by apply Z.eqb_eq].
Qed.

Lemma land3_range a : 0 <= Z.land a 3 < 4.
Proof. change 3 with (Z.ones 2). rewrite Z.land_ones by lia. apply Z.mod_pos_bound. lia. Qed.
Lemma land15_range a : 0 <= Z.land a 15 < 16.
Proof. change 15 with (Z.ones 4). rewrite Z.land_ones by lia. apply Z.mod_pos_bound. lia. Qed.
Lemma shiftr4_range b : is_byte b -> 0 <= Z.shiftr b 4 < 16.
Proof. unfold is_byte. intros. rewrite Z.shiftr_div_pow2 by lia. change (2^4) with 16. Z.div_mod_to_equations; lia. Qed.
Lemma shiftr6_range b : is_byte b -> 0 <= Z.shiftr b 6 < 4.
Proof. unfold is_byte. intros. rewrite Z.shiftr_div_pow2 by lia. change (2^6) with 64. Z.div_mod_to_equations; lia. Qed.


Lemma range_forallb2 (n m : nat) (P : Z -> Z -> bool) :
  forallb (fun x => forallb (P x) (below m)) (below n) = true ->
  forall x y, 0 <= x < Z.of_nat n -> 0 <= y < Z.of_nat m -> P x y = true.
Proof.
  intros H x y Hx Hy.
  apply (range_forallb m (P x)); [|done].
  by apply (range_forallb n (fun x => forallb (P x) (below m))).
Qed.

Lemma range_forallb3 (n m k : nat) (P : Z -> Z -> Z -> bool) :
  forallb (fun x => forallb (fun y => forallb (P x y) (below k)) (below m)) (below n) = true ->
  forall x y z, 0 <= x < Z.of_nat n -> 0 <= y < Z.of_nat m -> 0 <= z < Z.of_nat k ->
  P x y z = true.
Proof.
  intros H x y z Hx Hy Hz.
  apply (range_forallb k (P x y)); [|done].
  by apply (range_forallb2 n m (fun x y => forallb (P x y) (below k))).
Qed.

Lemma in_sextet_range v : in_sextet v = true -> 0 <= v < 64.
Proof. unfold in_sextet. intros [? ?]%andb_prop. lia. Qed.

Lemma join1 a b : is_byte a -> is_byte b ->
  0 <= sextet0 a < 64 /\ 0 <= sextet1 a b < 64 /\
  uchar (Z.lor (Z.shiftl (sextet0 a) 2) (Z.shiftr (sextet1 a b) 4)) = a.
Proof.
  intros Ha Hb. unfold sextet1.
  pose proof (shiftr4_range b Hb) as Hq. revert Hq. generalize (Z.shiftr b 4). intros q Hq.
  pose proof (range_forallb2 256 16 (fun a q =>
     in_sextet (sextet0 a) && in_sextet (Z.lor (Z.shiftl (Z.land a 3) 4) q) &&
     (uchar (Z.lor (Z.shiftl (sextet0 a) 2) (Z.shiftr (Z.lor (Z.shiftl (Z.land a 3) 4) q) 4)) =? a))
     ltac:(vm_compute; reflexivity) a q Ha Hq) as H.
  cbv beta in H. apply andb_prop in H as [H H3]. apply andb_prop in H as [H1 H2].
  apply in_sextet_range in H1, H2. apply Z.eqb_eq in H3. done.
Qed.

Lemma join2 a b c : is_byte b -> is_byte c ->
  0 <= sextet2 b c < 64 /\
  uchar (Z.lor (Z.shiftl (Z.land (sextet1 a b) 15) 4) (Z.shiftr (sextet2 b c) 2)) = b.
Proof.
  intros Hb Hc. unfold sextet1, sextet2.
  pose proof (land3_range a) as Hp. revert Hp. generalize (Z.land a 3). intros p Hp.
  pose proof (shiftr6_range c Hc) as Hq. revert Hq. generalize (Z.shiftr c 6). intros q Hq.
  pose proof (range_forallb3 4 256 4 (fun p b q =>
     in_sextet (Z.lor (Z.shiftl (Z.land b 15) 2) q) &&
     (uchar (Z.lor (Z.shiftl (Z.land (Z.lor (Z.shiftl p 4) (Z.shiftr b 4)) 15) 4)
               (Z.shiftr (Z.lor (Z.shiftl (Z.land b 15) 2) q) 2)) =? b))
     ltac:(vm_compute; reflexivity) p b q Hp Hb Hq) as H.
  cbv beta in H. apply andb_prop in H as [H1 H2].
  apply in_sextet_range in H1. apply Z.eqb_eq in H2. done.
Qed.

Lemma join3 b c : is_byte c ->
  0 <= sextet3 c < 64 /\
  uchar (Z.lor (Z.shiftl (Z.land (sextet2 b c) 3) 6) (sextet3 c)) = c.
Proof.
  intros Hc. unfold sextet2.
  pose proof (land15_range b) as Hp. revert Hp. generalize (Z.land b 15). intros p Hp.
  pose proof (range_forallb2 16 256 (fun p c =>
     in_sextet (sextet3 c) &&
     (uchar (Z.lor (Z.shiftl (Z.land (Z.lor (Z.shiftl p 2) (Z.shiftr c 6)) 3) 6) (sextet3 c)) =? c))
     ltac:(vm_compute; reflexivity) p c Hp Hc) as H.
  cbv beta in H. apply andb_prop in H as [H1 H2].
  apply in_sextet_range in H1. apply Z.eqb_eq in H2. done.
Qed.

(** One decoding step on the character of a sextet. *)
Lemma a2b_step v rest quad_pos leftchar pads bin_data :
  0 <= v < 64 ->
  a2b_base64_loop (_urlsafe_decode_translation (code (table_b2a_base64 v)) :: rest)
    quad_pos leftchar pads bin_data =
  match quad_pos with
  | 0 => a2b_base64_loop rest 1 v 0 bin_data
  | 1 => a2b_base64_loop rest 2 (Z.land v 15) 0
           (bin_data ++ [uchar (Z.lor (Z.shiftl leftchar 2) (Z.shiftr v 4))])
  | 2 => a2b_base64_loop rest 3 (Z.land v 3) 0
           (bin_data ++ [uchar (Z.lor (Z.shiftl leftchar 4) (Z.shiftr v 2))])
  | _ => a2b_base64_loop rest 0 0 0
           (bin_data ++ [uchar (Z.lor (Z.shiftl leftchar 6) v)])
  end.
Proof.
  intros Hv. destruct (table_roundtrip v Hv) as (_ & Hpad & Htab).
  cbn [a2b_base64_loop].
  assert ((_urlsafe_decode_translation (code (table_b2a_base64 v)) =? BASE64_PAD) = false) as ->.
  { revert Hpad. unfold _urlsafe_decode_translation, BASE64_PAD.
    repeat case_match; lia. }
  rewrite Htab. assert ((64 <=? v) = false) as -> by lia. done.
Qed.

Lemma list_ind3 {A} (P : list A -> Prop) :
  P [] -> (forall a, P [a]) -> (forall a b, P [a; b]) ->
  (forall a b c l, P l -> P (a :: b :: c :: l)) ->
  forall l, P l.
Proof.
  intros H0 H1 H2 H3 l.
  assert (P l /\ (forall a, P (a :: l)) /\ (forall a b, P (a :: b :: l))) as [? _].
  { induction l as [|x l (IH0 & IH1 & IH2)]; [done|].
    repeat split; [done | done | intros a b; by apply H3]. }
  done.
Qed.

Lemma append_String c s t : String c s +:+ t = String c (s +:+ t).
Proof. reflexivity. Qed.

Lemma append_empty t : "" +:+ t = t.
Proof. reflexivity. Qed.

Lemma encode_ascii_sextet v rest :
  0 <= v < 64 ->
  encode_ascii (String (table_b2a_base64 v) rest) =
  let? bs := encode_ascii rest in Return (code (table_b2a_base64 v) :: bs).
Proof.
  intros Hv. destruct (table_roundtrip v Hv) as (Hlt & _ & _).
  cbn [encode_ascii]. by rewrite Hlt.
Qed.

Lemma encode_ascii_rfc4648 bs :
  Forall is_byte bs ->
  encode_ascii (rfc4648_encode bs +:+ "===") =
  Return (bytes_of (rfc4648_encode bs +:+ "===")).
Proof.
  assert (is_byte 0) as H0 by (unfold is_byte; lia).
  induction bs as [|a|a b|a b c l IH] using list_ind3; intros Hbs.
  - done.
  - apply Forall_cons in Hbs as [Ha _].
    destruct (join1 a 0 Ha H0) as (? & ? & _).
    cbn [rfc4648_encode]. rewrite !append_String, ?append_empty. by rewrite !encode_ascii_sextet.
  - apply Forall_cons in Hbs as [Ha Hbs]. apply Forall_cons in Hbs as [Hb _].
    destruct (join1 a b Ha Hb) as (? & ? & _).
    destruct (join2 a b 0 Hb H0) as (? & _).
    cbn [rfc4648_encode]. rewrite !append_String, ?append_empty. by rewrite !encode_ascii_sextet.
  - apply Forall_cons in Hbs as [Ha Hbs]. apply Forall_cons in Hbs as [Hb Hbs].
    apply Forall_cons in Hbs as [Hc Hl].
    destruct (join1 a b Ha Hb) as (? & ? & _).
    destruct (join2 a b c Hb Hc) as (? & _).
    destruct (join3 b c Hc) as (? & _).
    cbn [rfc4648_encode]. rewrite !append_String, ?append_empty. rewrite !encode_ascii_sextet by done.
    rewrite (IH Hl). done.
Qed.

Lemma a2b_rfc4648 bs bin_data :
  Forall is_byte bs ->
  a2b_base64_loop
    (map _urlsafe_decode_translation (bytes_of (rfc4648_encode bs +:+ "===")))
    0 0 0 bin_data = Return (bin_data ++ bs)%list.
Proof.
  assert (is_byte 0) as H0 by (unfold is_byte; lia).
  revert bin_data.
  induction bs as [|a|a b|a b c l IH] using list_ind3; intros bin_data Hbs.
  - by rewrite app_nil_r.
  - apply Forall_cons in Hbs as [Ha _].
    destruct (join1 a 0 Ha H0) as (? & ? & Ea).
    cbn [rfc4648_encode]. rewrite !append_String, ?append_empty.
    cbn [bytes_of list_ascii_of_string map].
    rewrite !a2b_step by done. by rewrite Ea.
  - apply Forall_cons in Hbs as [Ha Hbs]. apply Forall_cons in Hbs as [Hb _].
    destruct (join1 a b Ha Hb) as (? & ? & Ea).
    destruct (join2 a b 0 Hb H0) as (? & Eb).
    cbn [rfc4648_encode]. rewrite !append_String, ?append_empty.
    cbn [bytes_of list_ascii_of_string map].
    rewrite !a2b_step by done. rewrite Ea, Eb. by rewrite <- app_assoc.
  - apply Forall_cons in Hbs as [Ha Hbs]. apply Forall_cons in Hbs as [Hb Hbs].
    apply Forall_cons in Hbs as [Hc Hl].
    destruct (join1 a b Ha Hb) as (? & ? & Ea).
    destruct (join2 a b c Hb Hc) as (? & Eb).
    destruct (join3 b c Hc) as (? & Ec).
    cbn [rfc4648_encode]. rewrite !append_String, ?append_empty.
    cbn [bytes_of list_ascii_of_string map].
    rewrite !a2b_step by done. rewrite Ea, Eb, Ec.
    change (map _urlsafe_decode_translation (map code (list_ascii_of_string ?s)))
      with (map _urlsafe_decode_translation (bytes_of s)).
    rewrite (IH _ Hl). by rewrite <- !app_assoc.
Qed.

(** Decoding the padded standard encoding of [bs], with the three padding
    characters the extractor appends, gives [bs] back. *)
Lemma urlsafe_b64decode_rfc4648 bs :
  Forall is_byte bs ->
  urlsafe_b64decode (rfc4648_encode bs +:+ "===") = Return bs.
Proof.
  intros Hbs. unfold urlsafe_b64decode, a2b_base64.
  rewrite (encode_ascii_rfc4648 bs Hbs). cbn [obind].
  by rewrite (a2b_rfc4648 bs [] Hbs).
Qed.

(** ** The TLS profile *)

Lemma split_CIPHERS13 : split ":" CIPHERS13 = CIPHERS13_names.
Proof. vm_compute. reflexivity. Qed.

Lemma split_CIPHERS : split ":" CIPHERS = CIPHERS_names.
Proof. vm_compute. reflexivity. Qed.

Lemma split_SIGALGS : split ":" SIGALGS = SIGALGS_names.
Proof. vm_compute. reflexivity. Qed.

(** The builder first sets what Python's [ssl] holds and then hands the
    three constants to the library, in this order. *)
Lemma create_riot_auth_ssl_ctx_returns E :
  supported E ->
  create_riot_auth_ssl_ctx E =
  Return
    (SSL_CTX_ctrl (installed_libssl E)
       (SSL_CTX_set_cipher_list (installed_libssl E)
          (SSL_CTX_set_ciphersuites (installed_libssl E)
             (mkSSLContext TLSv1 ["http/1.1"]
                (Z.lor (options (create_default_context E)) (Z.shiftl 1 19))
                (ciphersuites (create_default_context E))
                (cipher_list (create_default_context E))
                (sigalgs_list (create_default_context E)))
             CIPHERS13)
          CIPHERS)
       98 0 SIGALGS).
Proof.
  unfold create_riot_auth_ssl_ctx, load_library.
  intros [[Hwin Hlib] | (Hwin & Hposix & Hlib)].
  - by rewrite Hwin, Hlib.
  - by rewrite Hwin, Hposix, Hlib.
Qed.

Lemma no_encrypt_then_mac o : Z.testbit (Z.lor o (Z.shiftl 1 19)) 19 = true.
Proof.
  rewrite Z.lor_spec, Z.shiftl_spec by lia. apply orb_true_r.
Qed.

(** The setters of the library leave alone what Python's [ssl] holds. *)
Lemma libssl_keeps_python_side lib ctx s13 s sig :
  let ctx' :=
    SSL_CTX_ctrl lib
      (SSL_CTX_set_cipher_list lib (SSL_CTX_set_ciphersuites lib ctx s13) s)
      98 0 sig in
  minimum_version ctx' = minimum_version ctx /\
  alpn_protocols ctx' = alpn_protocols ctx /\
  options ctx' = options ctx.
Proof.
  cbv zeta. unfold SSL_CTX_ctrl, SSL_CTX_set_cipher_list, SSL_CTX_set_ciphersuites.
  repeat case_match; done.
Qed.

(** The list of older suites is written by one setter only. *)
Lemma libssl_cipher_list lib ctx s13 s sig :
  cipher_list
    (SSL_CTX_ctrl lib
       (SSL_CTX_set_cipher_list lib (SSL_CTX_set_ciphersuites lib ctx s13) s)
       98 0 sig) =
  List.filter (has_cipher lib) (split ":" s).
Proof.
  unfold SSL_CTX_ctrl, SSL_CTX_set_cipher_list. repeat case_match; done.
Qed.

Lemma libssl_ciphersuites lib ctx s13 s sig :
  ciphersuites
    (SSL_CTX_ctrl lib
       (SSL_CTX_set_cipher_list lib (SSL_CTX_set_ciphersuites lib ctx s13) s)
       98 0 sig) =
  ciphersuites (SSL_CTX_set_ciphersuites lib ctx s13).
Proof.
  unfold SSL_CTX_ctrl, SSL_CTX_set_cipher_list. repeat case_match; done.
Qed.

Lemma libssl_sigalgs_list lib ctx s13 s sig :
  sigalgs_list
    (SSL_CTX_ctrl lib
       (SSL_CTX_set_cipher_list lib (SSL_CTX_set_ciphersuites lib ctx s13) s)
       98 0 sig) =
  if forallb (has_sigalg lib) (split ":" sig) then split ":" sig
  else sigalgs_list ctx.
Proof.
  unfold SSL_CTX_ctrl, SSL_CTX_set_cipher_list, SSL_CTX_set_ciphersuites.
  repeat case_match; done.
Qed.

Lemma filter_all {A} (f : A -> bool) (l : list A) :
  forallb f l = true -> List.filter f l = l.
Proof.
  induction l as [|a l IH]; [done|]. cbn [forallb List.filter].
  intros [-> Hl]%andb_true_iff. by rewrite IH.
Qed.

Lemma filter_not_all {A} (f : A -> bool) (l : list A) :
  forallb f l = false -> (length (List.filter f l) < length l)%nat.
Proof.
  induction l as [|a l IH]; [done|]. cbn [forallb List.filter length].
  pose proof (List.filter_length_le f l) as Hle.
  destruct (f a); cbn [andb length]; [intros Hl; specialize (IH Hl)|]; lia.
Qed.

(** C5, amended.  On every supported platform branch
    [create_riot_auth_ssl_ctx] returns a context with ALPN holding only
    [http/1.1], minimum version TLS 1.0 and the option bit that disables
    encrypt-then-MAC set, to which it has handed the three TLS 1.3 suites,
    the 15 older suites and the 9 signature algorithms in the order of the
    class constants.  Of the 15 older suites the context holds those the
    loaded library has, in that order: all 15 exactly when the library has
    them all, and fewer otherwise.  It holds the three TLS 1.3 suites when
    the library knows the three, and the 9 signature algorithms (the last
    one RSA-PKCS1/SHA1) when the library knows the nine; when it does not,
    the default list of signature algorithms stays. *)
Theorem tls_profile_kept_by_libssl E :
  supported E ->
  exists ctx,
    create_riot_auth_ssl_ctx E = Return ctx /\
    alpn_protocols ctx = ["http/1.1"] /\
    minimum_version ctx = TLSv1 /\
    Z.testbit (options ctx) 19 = true /\
    cipher_list ctx =
      List.filter (has_cipher (installed_libssl E))
        [ "ECDHE-ECDSA-CHACHA20-POLY1305"; "ECDHE-RSA-CHACHA20-POLY1305";
          "ECDHE-ECDSA-AES128-GCM-SHA256"; "ECDHE-RSA-AES128-GCM-SHA256";
          "ECDHE-ECDSA-AES256-GCM-SHA384"; "ECDHE-RSA-AES256-GCM-SHA384";
          "ECDHE-ECDSA-AES128-SHA"; "ECDHE-RSA-AES128-SHA";
          "ECDHE-ECDSA-AES256-SHA"; "ECDHE-RSA-AES256-SHA";
          "AES128-GCM-SHA256"; "AES256-GCM-SHA384";
          "AES128-SHA"; "AES256-SHA"; "DES-CBC3-SHA" ] /\
    (forallb (has_cipher (installed_libssl E)) CIPHERS_names = true ->
     cipher_list ctx = CIPHERS_names /\ length (cipher_list ctx) = 15%nat) /\
    (forallb (has_cipher (installed_libssl E)) CIPHERS_names = false ->
     (length (cipher_list ctx) < 15)%nat) /\
    (forallb (has_ciphersuite (installed_libssl E)) CIPHERS13_names = true ->
     ciphersuites ctx =
       [ "TLS_CHACHA20_POLY1305_SHA256"; "TLS_AES_128_GCM_SHA256";
         "TLS_AES_256_GCM_SHA384" ]) /\
    (forallb (has_sigalg (installed_libssl E)) SIGALGS_names = true ->
     sigalgs_list ctx =
       [ "ecdsa_secp256r1_sha256"; "rsa_pss_rsae_sha256"; "rsa_pkcs1_sha256";
         "ecdsa_secp384r1_sha384"; "rsa_pss_rsae_sha384"; "rsa_pkcs1_sha384";
         "rsa_pss_rsae_sha512"; "rsa_pkcs1_sha512"; "rsa_pkcs1_sha1" ] /\
     last (sigalgs_list ctx) = Some "rsa_pkcs1_sha1") /\
    (forallb (has_sigalg (installed_libssl E)) SIGALGS_names = false ->
     sigalgs_list ctx = sigalgs_list (create_default_context E)).
Proof.
  intros Hsup. eexists. split; [by apply create_riot_auth_ssl_ctx_returns|].
  set (lib := installed_libssl E).
  rewrite libssl_cipher_list, libssl_ciphersuites, libssl_sigalgs_list.
  rewrite split_CIPHERS, split_SIGALGS.
  match goal with
  | |- context [SSL_CTX_ctrl lib (SSL_CTX_set_cipher_list lib
                  (SSL_CTX_set_ciphersuites lib ?c ?s13) ?s) 98 0 ?sig] =>
      destruct (libssl_keeps_python_side lib c s13 s sig) as (-> & -> & ->)
  end.
  cbn [alpn_protocols minimum_version options sigalgs_list].
  split; [done|]. split; [done|]. split; [apply no_encrypt_then_mac|].
  split; [done|].
  split; [by intros ->%filter_all|].
  split; [by intros Hno%filter_not_all|].
  split.
  - intros Hall. unfold SSL_CTX_set_ciphersuites.
    rewrite split_CIPHERS13.
    change (String.eqb CIPHERS13 "") with false. cbv iota.
    rewrite Hall, (filter_all _ _ Hall), andb_false_r. done.
  - split; [by intros ->|by intros ->].
Qed.

Lemma tls_profile_kept_by_libssl_witness :
  supported (Sample.env Sample.script_ok) /\
  exists ctx,
    create_riot_auth_ssl_ctx (Sample.env Sample.script_ok) = Return ctx /\
    alpn_protocols ctx = ["http/1.1"] /\ minimum_version ctx = TLSv1 /\
    length (cipher_list ctx) = 14%nat.
Proof.
  assert (supported (Sample.env Sample.script_ok)) as Hsup.
  { right. repeat split; vm_compute; reflexivity. }
  split; [exact Hsup|].
  destruct (tls_profile_kept_by_libssl _ Hsup)
    as (ctx & Hctx & Halpn & Hmin & _ & Hlist & _).
  exists ctx. repeat split; [exact Hctx|exact Halpn|exact Hmin|].
  rewrite Hlist. vm_compute. reflexivity.
Defined.

(** C5, as stated, fails on a host whose library is a default build of
    OpenSSL 3.0: it does not have [DES-CBC3-SHA], so the context the builder
    returns holds 14 older suites, not the 15 of the class constant. *)
Lemma tls_profile_counterexample :
  exists ctx,
    create_riot_auth_ssl_ctx (Sample.env Sample.script_ok) = Return ctx /\
    length (cipher_list ctx) = 14%nat /\
    in_list "DES-CBC3-SHA" (cipher_list ctx) = false /\
    in_list "DES-CBC3-SHA" CIPHERS_names = true /\
    cipher_list ctx =
      [ "ECDHE-ECDSA-CHACHA20-POLY1305"; "ECDHE-RSA-CHACHA20-POLY1305";
        "ECDHE-ECDSA-AES128-GCM-SHA256"; "ECDHE-RSA-AES128-GCM-SHA256";
        "ECDHE-ECDSA-AES256-GCM-SHA384"; "ECDHE-RSA-AES256-GCM-SHA384";
        "ECDHE-ECDSA-AES128-SHA"; "ECDHE-RSA-AES128-SHA";
        "ECDHE-ECDSA-AES256-SHA"; "ECDHE-RSA-AES256-SHA";
        "AES128-GCM-SHA256"; "AES256-GCM-SHA384";
        "AES128-SHA"; "AES256-SHA" ].
Proof.
  eexists. repeat split; vm_compute; reflexivity.
Qed.

(** ** The token extractor *)

Section Extractor.

Context (E : Env).

(** C3.  For an access token of three dot-separated segments whose middle
    segment is the padded standard base64 of bytes that [json.loads] reads
    as an object, [__get_keys_from_access_token] with the default pairs
    returns the object's [sub] under [user_id] and its [exp] under
    [expires_at]. *)
Theorem extractor_reads_sub_and_exp (s : RiotAuth)
    (token header payload signature : string) (bs : list Z)
    (d : list (string * value)) :
  getattr s "access_token" = Return (VStr token) ->
  split "." token = [header; payload; signature] ->
  Forall is_byte bs ->
  payload = rfc4648_encode bs ->
  json_loads E bs = Ok (VDict d) ->
  __get_keys_from_access_token E s default_key_attr_pairs =
  Return [("user_id", dict_get d "sub"); ("expires_at", dict_get d "exp")].
Proof.
  intros Htok Hsplit Hbs -> Hjson.
  unfold __get_keys_from_access_token.
  rewrite Htok. cbn [obind]. rewrite Hsplit. cbn [list_getitem nth_error obind].
  rewrite (urlsafe_b64decode_rfc4648 bs Hbs). cbn [obind].
  rewrite Hjson. reflexivity.
Qed.

End Extractor.

Lemma extractor_reads_sub_and_exp_witness :
  __get_keys_from_access_token (Sample.env Sample.script_ok)
    (setattr Sample.fresh "access_token" (VStr Sample.token))
    default_key_attr_pairs =
  Return [("user_id", VStr "u-1"); ("expires_at", VInt 1700000000)].
Proof.
  apply (extractor_reads_sub_and_exp (Sample.env Sample.script_ok)
           (setattr Sample.fresh "access_token" (VStr Sample.token))
           Sample.token "h" "eyJzdWIiOiJ1LTEiLCJleHAiOjE3MDAwMDAwMDB9" "s"
           Sample.claims_object Sample.claims).
  - vm_compute; reflexivity.
  - vm_compute; reflexivity.
  - unfold Sample.claims_object, is_byte. repeat (apply Forall_cons; split; [lia|]).
    apply Forall_nil; exact I.
  - vm_compute; reflexivity.
  - vm_compute; reflexivity.
Defined.

(** ** Which exceptions a call can raise *)

Lemma raises_Return {A} B (a : A) : raises B (Return a).
Proof. intros e He. discriminate. Qed.

Lemma raises_Raise {A} (B : exn -> Prop) e : B e -> raises B (@Raise A e).
Proof. intros HB e' [= <-]. exact HB. Qed.

Lemma raises_retype {A C} (B : exn -> Prop) e :
  raises B (@Raise A e) -> raises B (@Raise C e).
Proof. intros H e' [= <-]. by apply (H e). Qed.

Lemma raises_obind {A C} B (o : outcome A) (k : A -> outcome C) :
  raises B o -> (forall a, o = Return a -> raises B (k a)) -> raises B (obind o k).
Proof.
  intros Ho Hk e. destruct o as [a|e']; cbn [obind].
  - by apply Hk.
  - intros [= <-]. by apply Ho.
Qed.

Lemma raises_comprehension {A C} B (f : A -> outcome C) xs :
  (forall x, raises B (f x)) -> raises B (comprehension f xs).
Proof.
  intros Hf. induction xs as [|x xs IH]; cbn [comprehension].
  - apply raises_Return.
  - apply raises_obind; [apply Hf|]. intros y _.
    apply raises_obind; [apply IH|]. intros ys _. apply raises_Return.
Qed.

Lemma raises_comprehension_if {A} B (f : A -> outcome bool) xs :
  (forall x, raises B (f x)) -> raises B (comprehension_if f xs).
Proof.
  intros Hf. induction xs as [|x xs IH]; cbn [comprehension_if].
  - apply raises_Return.
  - apply raises_obind; [apply Hf|]. intros y _.
    apply raises_obind; [apply IH|]. intros ys _. apply raises_Return.
Qed.

Lemma raises_getitem data key : raises benign (getitem data key).
Proof.
  intros e. unfold getitem. repeat case_match; intros [= <-]; reflexivity.
Qed.

Lemma raises_get data key : raises benign (get data key).
Proof. intros e. unfold get. case_match; intros [= <-]; reflexivity. Qed.

Lemma raises_in_keys data key : raises benign (in_keys key data).
Proof. intros e. unfold in_keys. case_match; intros [= <-]; reflexivity. Qed.

Lemma raises_list_getitem {A} (l : list A) i : raises benign (list_getitem l i).
Proof. intros e. unfold list_getitem. case_match; intros [= <-]; reflexivity. Qed.

Lemma raises_of_result_lib {A} (r : result A lib_error) :
  raises benign (of_result exn_of_lib r).
Proof. intros e. destruct r as [a|[]]; intros [= <-]; reflexivity. Qed.

Lemma raises_of_result_json {A} (r : result A json_error) :
  raises benign (of_result exn_of_json r).
Proof. intros e. destruct r as [a|[]]; intros [= <-]; reflexivity. Qed.

Lemma raises_of_result_client {A} (r : result A client_error) :
  raises benign (of_result ClientError r).
Proof. intros e. destruct r as [a|[]]; intros [= <-]; reflexivity. Qed.

Lemma raises_encode_ascii s : raises (fun e => e = ValueError) (encode_ascii s).
Proof.
  induction s as [|c s IH]; cbn [encode_ascii].
  - apply raises_Return.
  - case_match.
    + apply raises_obind; [exact IH|]. intros; apply raises_Return.
    + by apply raises_Raise.
Qed.

Lemma raises_a2b_base64_loop ascii_data quad_pos leftchar pads bin_data :
  raises (fun e => e = binascii_Error)
    (a2b_base64_loop ascii_data quad_pos leftchar pads bin_data).
Proof.
  revert quad_pos leftchar pads bin_data.
  induction ascii_data as [|c rest IH]; intros; cbn [a2b_base64_loop].
  - case_match; [apply raises_Return | by apply raises_Raise].
  - repeat case_match; try apply IH; apply raises_Return.
Qed.

Lemma raises_urlsafe_b64decode s : raises is_decode_error (urlsafe_b64decode s).
Proof.
  unfold urlsafe_b64decode. apply raises_obind.
  - intros e He. left. by apply (raises_encode_ascii s).
  - intros bs _ e He. right. by apply (raises_a2b_base64_loop _ _ _ _ _ e He).
Qed.

Lemma raises_weaken {A} (B B' : exn -> Prop) (o : outcome A) :
  (forall e, B e -> B' e) -> raises B o -> raises B' o.
Proof. intros HBB Ho e He. apply HBB. by apply Ho. Qed.

Section Raises.

Context (E : Env).

Lemma raises___get_keys_from_access_token s key_attr_pairs :
  raises benign (__get_keys_from_access_token E s key_attr_pairs).
Proof.
  unfold __get_keys_from_access_token.
  apply raises_obind.
  { intros e. unfold getattr. case_match; intros [= <-]; reflexivity. }
  intros access_token _. apply raises_obind.
  { intros e. case_match; intros [= <-]; reflexivity. }
  intros segments _. apply raises_obind; [apply raises_list_getitem|].
  intros payload _. apply raises_obind.
  { eapply raises_weaken; [|apply raises_urlsafe_b64decode].
    intros e [-> | ->]; reflexivity. }
  intros decoded _. apply raises_obind; [apply raises_of_result_json|].
  intros temp_dict _. destruct key_attr_pairs as [l|cs].
  - apply raises_comprehension. intros [key attr].
    apply raises_obind; [apply raises_get|]. intros; apply raises_Return.
  - apply raises_comprehension. intros _. by apply raises_Raise.
Qed.

Lemma raises_predefined_keys s : raises benign (predefined_keys s).
Proof.
  apply raises_comprehension_if. intros key e. unfold not_underscore.
  case_match; intros [= <-]; reflexivity.
Qed.

Lemma raises___update s extract_jwt key_attr_pairs kwargs :
  raises benign (__update E s extract_jwt key_attr_pairs kwargs).1.
Proof.
  unfold __update.
  destruct (predefined_keys s) as [keys|e'] eqn:Hkeys; cbn [fst].
  - destruct extract_jwt; [|apply raises_Return].
    match goal with |- context [__get_keys_from_access_token E ?s' ?k] =>
      pose proof (raises___get_keys_from_access_token s' k) as Hget;
      destruct (__get_keys_from_access_token E s' k) as [data|e'] end; cbn [fst].
    + apply raises_Return.
    + by apply (raises_retype _ _ Hget).
  - apply (raises_retype (A := list string)).
    rewrite <- Hkeys. apply raises_predefined_keys.
Qed.

Lemma raises_call___update s data :
  raises benign (call___update E s data).1.
Proof.
  unfold call___update. case_match; cbn [fst].
  - by apply raises_Raise.
  - apply raises___update.
Qed.

Lemma raises_redirect_pairs data : raises benign (redirect_pairs E data).
Proof.
  unfold redirect_pairs.
  repeat (apply raises_obind; [first [apply raises_getitem | apply raises_of_result_lib]|]; intros ? _).
  apply raises_Return.
Qed.

Lemma raises___set_tokens_from_uri s data :
  raises benign (__set_tokens_from_uri E s data).1.
Proof.
  unfold __set_tokens_from_uri.
  pose proof (raises_redirect_pairs data) as H.
  destruct (redirect_pairs E data) as [m|e']; cbn [fst].
  - apply raises_call___update.
  - by apply (raises_retype _ _ H).
Qed.

End Raises.

(** ** What a method body guarantees *)

Section Guarantees.

Context (R : State -> State -> Prop) (B : exn -> Prop).
Context (R_refl : forall st, R st st).
Context (R_trans : forall st1 st2 st3, R st1 st2 -> R st2 st3 -> R st1 st3).

Lemma guarantees_ret {A} (a : A) : guarantees R B (ret a).
Proof. intros st. split; [apply R_refl | apply raises_Return]. Qed.

Lemma guarantees_raise {A} e : B e -> guarantees R B (@raise A e).
Proof. intros HB st. split; [apply R_refl | by apply raises_Raise]. Qed.

Lemma guarantees_lift {A} (o : outcome A) : raises B o -> guarantees R B (lift o).
Proof. intros Ho st. split; [apply R_refl | exact Ho]. Qed.

Lemma guarantees_get_self : guarantees R B get_self.
Proof. intros st. split; [apply R_refl | apply raises_Return]. Qed.

Lemma guarantees_bind {A C} (m : M A) (k : A -> M C) :
  guarantees R B m -> (forall a, guarantees R B (k a)) ->
  guarantees R B (bind m k).
Proof.
  intros Hm Hk st. unfold bind.
  destruct (Hm st) as [HR HB]. destruct (m st) as [[a|e] st'].
  - destruct (Hk a st') as [HR' HB']. split; [|exact HB'].
    by apply (R_trans _ st').
  - split; [exact HR|]. by apply (raises_retype _ _ HB).
Qed.

End Guarantees.

Lemma bind_assoc {A C D} (m : M A) (k : A -> M C) (k' : C -> M D) st :
  bind (bind m k) k' st = bind m (fun a => bind (k a) k') st.
Proof. unfold bind. destruct (m st) as [[a|e] st']; reflexivity. Qed.

Lemma same_attrs_refl st : same_attrs st st.
Proof. reflexivity. Qed.

Lemma same_attrs_trans st1 st2 st3 :
  same_attrs st1 st2 -> same_attrs st2 st3 -> same_attrs st1 st3.
Proof. unfold same_attrs. congruence. Qed.

Lemma trace_grows_refl st : trace_grows st st.
Proof. exists []. by rewrite app_nil_r. Qed.

Lemma trace_grows_trans st1 st2 st3 :
  trace_grows st1 st2 -> trace_grows st2 st3 -> trace_grows st1 st3.
Proof.
  intros [r1 H1] [r2 H2]. exists (r1 ++ r2)%list.
  by rewrite H2, H1, app_assoc.
Qed.

Lemma any_state_refl st : any_state st st.
Proof. exact I. Qed.

Lemma any_state_trans st1 st2 st3 :
  any_state st1 st2 -> any_state st2 st3 -> any_state st1 st3.
Proof. done. Qed.

Section Bodies.

Context (E : Env).

(** *** The first half keeps the public attributes *)

Lemma request_same_attrs method url json headers :
  guarantees same_attrs any_exn (request E method url json headers).
Proof. intros st. split; [reflexivity | done]. Qed.

Lemma cookie_jar_clear_same_attrs : guarantees same_attrs any_exn cookie_jar_clear.
Proof. intros st. split; [reflexivity | done]. Qed.

(** *** The second half raises no error of the credential stage *)

Lemma on_self_benign {A} (f : RiotAuth -> outcome A * RiotAuth) :
  (forall s, raises benign (f s).1) -> guarantees any_state benign (on_self f).
Proof.
  intros Hf st. split; [exact I|]. unfold on_self.
  specialize (Hf (self st)). by destruct (f (self st)).
Qed.

Lemma write_file_benign path content :
  guarantees any_state benign (write_file E path content).
Proof.
  intros st. split; [exact I|]. unfold write_file.
  case_match; [apply raises_Return | by apply raises_Raise].
Qed.

Lemma read_attr_benign name : guarantees any_state benign (read_attr name).
Proof.
  intros st. split; [exact I|]. unfold read_attr, getattr. cbn [fst].
  case_match; [apply raises_Return | by apply raises_Raise].
Qed.

Lemma request_benign method url json headers :
  guarantees any_state benign (request E method url json headers).
Proof. intros st. split; [exact I|]. apply raises_of_result_client. Qed.

Lemma put_self_benign s : guarantees any_state benign (put_self s).
Proof. intros st. split; [exact I | apply raises_Return]. Qed.

(** *** The trace of requests only grows *)

Lemma request_trace method url json headers :
  guarantees trace_grows any_exn (request E method url json headers).
Proof. intros st. split; [by eexists | done]. Qed.

Lemma same_trace_grows {A} (m : M A) :
  (forall st, sent (m st).2 = sent st) -> guarantees trace_grows any_exn m.
Proof.
  intros H st. split; [|done]. exists []. by rewrite H, app_nil_r.
Qed.

Lemma write_file_trace path content :
  guarantees trace_grows any_exn (write_file E path content).
Proof.
  apply same_trace_grows. intros st. unfold write_file. by case_match.
Qed.

Lemma on_self_trace {A} (f : RiotAuth -> outcome A * RiotAuth) :
  guarantees trace_grows any_exn (on_self f).
Proof.
  apply same_trace_grows. intros st. unfold on_self. by destruct (f (self st)).
Qed.

End Bodies.

(** A body built from these steps with [bind] and [if]. *)
Ltac keeps_attrs :=
  repeat first
    [ apply (guarantees_ret _ _ same_attrs_refl)
    | apply (guarantees_raise _ _ same_attrs_refl); exact I
    | apply (guarantees_lift _ _ same_attrs_refl); done
    | apply request_same_attrs
    | apply cookie_jar_clear_same_attrs
    | apply (guarantees_bind _ _ same_attrs_trans); [|intros ?]
    | match goal with |- guarantees _ _ (if ?b then _ else _) => destruct b end ].

Ltac stays_benign :=
  repeat first
    [ apply write_file_benign
    | apply read_attr_benign
    | apply request_benign
    | apply put_self_benign
    | apply (guarantees_get_self _ _ any_state_refl)
    | apply (guarantees_lift _ _ any_state_refl); apply raises_getitem
    | apply on_self_benign; intros ?; apply raises___set_tokens_from_uri
    | apply (guarantees_bind _ _ any_state_trans); [|intros ?] ].

Ltac trace_only_grows :=
  repeat first
    [ apply (guarantees_ret _ _ trace_grows_refl)
    | apply (guarantees_raise _ _ trace_grows_refl); exact I
    | apply (guarantees_lift _ _ trace_grows_refl); done
    | apply (guarantees_get_self _ _ trace_grows_refl)
    | apply request_trace
    | apply write_file_trace
    | apply on_self_trace
    | apply same_trace_grows; intros ?; reflexivity
    | apply (guarantees_bind _ _ trace_grows_trans); [|intros ?]
    | match goal with |- guarantees _ _ (if ?b then _ else _) => destruct b end ].

Lemma negotiate_same_attrs E username password use_query_response_mode :
  guarantees same_attrs any_exn
    (negotiate E username password use_query_response_mode).
Proof. unfold negotiate. keeps_attrs. Qed.

Lemma finish_benign E data : guarantees any_state benign (finish E data).
Proof. unfold finish. stays_benign. Qed.

Lemma authenticate_trace E data headers :
  guarantees trace_grows any_exn (authenticate E data headers).
Proof. unfold authenticate. trace_only_grows. Qed.

Lemma finish_trace E data : guarantees trace_grows any_exn (finish E data).
Proof. unfold finish. trace_only_grows. Qed.

(** The first request a body sends is the first entry it adds to the
    trace. *)
Lemma bind_request_trace E {C} method url json headers (k : value -> M C) st :
  (forall data, guarantees trace_grows any_exn (k data)) ->
  exists rest,
    sent (bind (request E method url json headers) k st).2 =
    (sent st ++ request_of method url json headers st :: rest)%list.
Proof.
  intros Hk. unfold bind, request.
  destruct (of_result ClientError _) as [data|e].
  - destruct (Hk data (received (request_of method url json headers st)
                         (send E (request_of method url json headers st)) st))
      as [[rest Hrest] _].
    exists rest. rewrite Hrest. cbn [received sent]. by rewrite <- app_assoc.
  - by exists [].
Qed.

(** ** authorize *)

Lemma bind_Return {A C} (m : M A) (k : A -> M C) st a st' :
  m st = (Return a, st') -> bind m k st = k a st'.
Proof. intros H. unfold bind. by rewrite H. Qed.

Lemma bind_Raise {A C} (m : M A) (k : A -> M C) st e st' :
  m st = (Raise e, st') -> bind m k st = (Raise e, st').
Proof. intros H. unfold bind. by rewrite H. Qed.

Section Authorize.

Context (E : Env).

(** C10.  If [authorize] raises one of the four errors of the credential
    stage, the seven token fields of the session are what they were before
    the call. *)
Theorem credential_error_keeps_tokens (username password : string)
    (use_query_response_mode : bool) (st st' : State) (e : exn) :
  authorize E username password use_query_response_mode st = (Raise e, st') ->
  is_credential_error e = true ->
  Forall (fun field => attrs (self st') !! field = attrs (self st) !! field)
    token_fields.
Proof.
  intros Hrun He. unfold authorize, bind in Hrun.
  destruct (negotiate_same_attrs E username password use_query_response_mode st)
    as [Hattrs _].
  destruct (negotiate E username password use_query_response_mode st)
    as [[data|e1] st1] eqn:Hneg.
  - destruct (finish_benign E data st1) as [_ Hbenign].
    rewrite Hrun in Hbenign. specialize (Hbenign e eq_refl).
    unfold benign in Hbenign. congruence.
  - injection Hrun as <- <-. cbn [snd] in Hattrs. unfold same_attrs in Hattrs.
    rewrite Hattrs. by apply Forall_forall.
Qed.

(** C7.  The first request of a run is the initiation request, and the
    cookie store it is sent from is empty when both credentials are
    non-empty, and the store of the session as it was before the call
    otherwise. *)
Theorem first_request_cookie_store (username password : string)
    (use_query_response_mode : bool) (st : State) :
  exists req rest,
    sent (authorize E username password use_query_response_mode st).2 =
      (sent st ++ req :: rest)%list /\
    method req = POST /\ url req = AUTHORIZATION_URL /\
    jar req =
      if truthy username && truthy password then ∅
      else _cookie_jar (self st).
Proof.
  unfold authorize, negotiate. rewrite !bind_assoc.
  set (st0 := ((if truthy username && truthy password
                then cookie_jar_clear else ret tt) st).2).
  assert (sent st0 = sent st /\
          _cookie_jar (self st0) =
            if truthy username && truthy password then ∅
            else _cookie_jar (self st)) as [Hsent Hjar].
  { subst st0. by destruct (truthy username && truthy password). }
  rewrite (bind_Return _ _ st tt st0)
    by (subst st0; by destruct (truthy username && truthy password)).
  rewrite bind_assoc.
  match goal with |- context [bind (request E ?m ?u ?j ?h) ?k st0] =>
    destruct (bind_request_trace E m u j h k st0) as [rest Hrest]
  end.
  { intros data. trace_only_grows. }
  eexists _, rest. rewrite Hrest, Hsent. split; [reflexivity|].
  cbn [request_of method url jar]. by rewrite Hjar.
Qed.


(** [reauthorize] by the outcome of the run it wraps. *)
Lemma reauthorize_unfold (st : State) :
  reauthorize E st =
  match authorize E "" "" false st with
  | (Return _, st') => (Return true, st')
  | (Raise e, st') =>
      if is_RiotAuthenticationError e then (Return false, st')
      else (Raise e, st')
  end.
Proof.
  unfold reauthorize, try_except_RiotAuthenticationError, bind, ret.
  by destruct (authorize E "" "" false st) as [[[]|e] st'].
Qed.

(** C2.  [reauthorize] runs [authorize] with an empty username and an empty
    password and leaves the state that run leaves; it returns [True] exactly
    when the run completes, [False] exactly when the run raises
    [RiotAuthenticationError], and it raises [e] exactly when the run raises
    an [e] of any other class. *)
Theorem reauthorize_outcomes (st : State) :
  (reauthorize E st).2 = (authorize E "" "" false st).2 /\
  ((reauthorize E st).1 = Return true <->
   (authorize E "" "" false st).1 = Return tt) /\
  ((reauthorize E st).1 = Return false <->
   exists err, (authorize E "" "" false st).1 = Raise (RiotAuthenticationError err)) /\
  (forall e,
     (reauthorize E st).1 = Raise e <->
     (authorize E "" "" false st).1 = Raise e /\
     is_RiotAuthenticationError e = false).
Proof.
  rewrite reauthorize_unfold.
  destruct (authorize E "" "" false st) as [[[]|e] st'] eqn:Hrun; cbn [fst snd].
  - repeat split; try done.
    + intros [err Herr]. discriminate.
    + intros [He _]. discriminate.
  - destruct (is_RiotAuthenticationError e) eqn:Hclass; cbn [fst snd].
    + split; [done|]. split; [split; discriminate|]. split.
      * split; [intros _ | done].
        destruct e; try discriminate Hclass. by eexists.
      * intros e'. split; [discriminate|]. intros [[= <-] Hno]. congruence.
    + split; [done|]. split; [split; discriminate|]. split.
      * split; [discriminate|]. intros [err [= ->]]. discriminate Hclass.
      * intros e'. split; [intros [= <-]; by split | by intros [[= ->] _]].
Qed.


Lemma request_answered kind data method url json headers st :
  answers E kind data ->
  kind (request_of method url json headers st) ->
  request E method url json headers st =
  (Return data,
   received (request_of method url json headers st)
     (send E (request_of method url json headers st)) st).
Proof.
  intros Hans Hkind. unfold request. by rewrite (Hans _ Hkind).
Qed.

Lemma eq_str_true v lit : eq_str v lit = true -> v = VStr lit.
Proof.
  destruct v; try discriminate. cbn [eq_str].
  by intros ->%String.eqb_eq.
Qed.

(** The answer to the credentials has discriminant [auth]. *)
Lemma authenticate_auth d t headers st :
  assoc "type" d = Some t ->
  eq_str t "auth" = true ->
  authenticate E (VDict d) headers st =
  (Raise
     (if eq_str (dict_get d "error") "auth_failure"
      then RiotAuthenticationError (dict_get d "error")
      else if eq_str (dict_get d "error") "rate_limited"
      then RiotRatelimitError
      else RiotUnknownErrorTypeError (dict_get d "error")),
   st).
Proof.
  intros Htype Hauth. apply eq_str_true in Hauth as ->.
  unfold authenticate, bind, lift, getitem, get. rewrite Htype.
  cbn [eq_str String.eqb Ascii.eqb Bool.eqb].
  by repeat case_match.
Qed.

(** The answer to the credentials has a discriminant the client does not
    know. *)
Lemma authenticate_unknown d t headers st :
  assoc "type" d = Some t ->
  eq_str t "response" = false ->
  eq_str t "auth" = false ->
  eq_str t "multifactor" = false ->
  authenticate E (VDict d) headers st =
  (Raise (RiotUnknownResponseTypeError t), st).
Proof.
  intros Htype H1 H2 H3.
  unfold authenticate, bind, lift, getitem. rewrite Htype.
  by rewrite H1, H2, H3.
Qed.

(** The provider rejects the multifactor code. *)
Lemma authenticate_multifactor_failed d t mfa err headers st :
  assoc "type" d = Some t ->
  eq_str t "multifactor" = true ->
  answers E is_multifactor (VDict mfa) ->
  assoc "error" mfa = Some err ->
  eq_str err "multifactor_attempt_failed" = true ->
  exists st',
    authenticate E (VDict d) headers st =
      (Raise (NameError "RiotMultifactorAttemptError"), st') /\
    same_attrs st st'.
Proof.
  intros Htype Hmfa Hans Herr Hfailed. apply eq_str_true in Hmfa as ->.
  eexists. unfold authenticate.
  rewrite (bind_Return _ _ st (VStr "multifactor") st)
    by (unfold lift, getitem; by rewrite Htype).
  cbn [eq_str String.eqb Ascii.eqb Bool.eqb].
  erewrite bind_Return; cycle 1.
  { by apply (request_answered is_multifactor (VDict mfa)). }
  erewrite bind_Return; cycle 1.
  { unfold lift, in_keys. rewrite Herr. reflexivity. }
  rewrite bool_decide_true by by eexists.
  erewrite bind_Return; cycle 1.
  { erewrite bind_Return; cycle 1.
    { unfold lift, getitem. rewrite Herr. reflexivity. }
    reflexivity. }
  rewrite Hfailed. split; reflexivity.
Qed.

(** The run up to the submission of the credentials. *)
Lemma negotiate_submits_credentials init t0 data username password q st :
  answers E is_initiation init ->
  getitem init "type" = Return t0 ->
  eq_str t0 "response" = false ->
  answers E is_credentials data ->
  exists st',
    negotiate E username password q st =
      authenticate E data initial_headers st' /\
    same_attrs st st'.
Proof.
  intros Hinit Ht0 Hno Hcred. eexists. unfold negotiate.
  erewrite bind_Return; cycle 1.
  { instantiate (1 := ((if truthy username && truthy password
                        then cookie_jar_clear else ret tt) st).2).
    instantiate (1 := tt).
    by destruct (truthy username && truthy password). }
  erewrite bind_Return; cycle 1.
  { by apply (request_answered is_initiation init). }
  erewrite bind_Return; cycle 1.
  { unfold lift. rewrite Ht0. reflexivity. }
  rewrite Hno. cbn [negb].
  erewrite bind_Return; cycle 1.
  { by apply (request_answered is_credentials data). }
  split; [reflexivity|].
  unfold same_attrs. cbn [received self attrs].
  by destruct (truthy username && truthy password).
Qed.

(** The run when the provider answers the initiation with the redirect. *)
Lemma negotiate_shortcut init t0 username password q st :
  answers E is_initiation init ->
  getitem init "type" = Return t0 ->
  eq_str t0 "response" = true ->
  exists st',
    negotiate E username password q st = (Return init, st') /\
    same_attrs st st'.
Proof.
  intros Hinit Ht0 Hyes. eexists. unfold negotiate.
  erewrite bind_Return; cycle 1.
  { instantiate (1 := ((if truthy username && truthy password
                        then cookie_jar_clear else ret tt) st).2).
    instantiate (1 := tt).
    by destruct (truthy username && truthy password). }
  erewrite bind_Return; cycle 1.
  { by apply (request_answered is_initiation init). }
  erewrite bind_Return; cycle 1.
  { unfold lift. rewrite Ht0. reflexivity. }
  rewrite Hyes. cbn [negb]. split; [reflexivity|].
  unfold same_attrs. cbn [received self attrs].
  by destruct (truthy username && truthy password).
Qed.

Lemma authorize_negotiate_Raise username password q st e st' :
  negotiate E username password q st = (Raise e, st') ->
  authorize E username password q st = (Raise e, st').
Proof. intros H. unfold authorize. by apply bind_Raise. Qed.

(** A run whose credentials are answered with discriminant [auth]. *)
Lemma authorize_auth_error init t0 d t username password q st :
  answers E is_initiation init ->
  getitem init "type" = Return t0 ->
  eq_str t0 "response" = false ->
  answers E is_credentials (VDict d) ->
  assoc "type" d = Some t ->
  eq_str t "auth" = true ->
  (authorize E username password q st).1 =
  Raise
    (if eq_str (dict_get d "error") "auth_failure"
     then RiotAuthenticationError (dict_get d "error")
     else if eq_str (dict_get d "error") "rate_limited"
     then RiotRatelimitError
     else RiotUnknownErrorTypeError (dict_get d "error")).
Proof.
  intros Hinit Ht0 Hno Hcred Htype Hauth.
  destruct (negotiate_submits_credentials init t0 (VDict d) username password
              q st Hinit Ht0 Hno Hcred) as (st' & Hneg & _).
  erewrite authorize_negotiate_Raise; [reflexivity|].
  rewrite Hneg. by apply (authenticate_auth d t).
Qed.

(** A run whose credentials are answered with an unknown discriminant. *)
Lemma authorize_unknown_response init t0 d t username password q st :
  answers E is_initiation init ->
  getitem init "type" = Return t0 ->
  eq_str t0 "response" = false ->
  answers E is_credentials (VDict d) ->
  assoc "type" d = Some t ->
  eq_str t "response" = false ->
  eq_str t "auth" = false ->
  eq_str t "multifactor" = false ->
  (authorize E username password q st).1 =
  Raise (RiotUnknownResponseTypeError t).
Proof.
  intros Hinit Ht0 Hno Hcred Htype H1 H2 H3.
  destruct (negotiate_submits_credentials init t0 (VDict d) username password
              q st Hinit Ht0 Hno Hcred) as (st' & Hneg & _).
  erewrite authorize_negotiate_Raise; [reflexivity|].
  rewrite Hneg. by apply (authenticate_unknown d t).
Qed.

(** C1.  When the provider answers the initiation with a discriminant other
    than [response], the answer to the credentials decides the failure: with
    discriminant [auth], error [auth_failure] raises
    [RiotAuthenticationError], error [rate_limited] raises
    [RiotRatelimitError] and any other error raises
    [RiotUnknownErrorTypeError]; a discriminant other than [response], [auth]
    and [multifactor] raises [RiotUnknownResponseTypeError]. *)
Theorem credential_failure_branching (init t0 : value)
    (d : list (string * value)) (t : value)
    (username password : string) (use_query_response_mode : bool) (st : State) :
  answers E is_initiation init ->
  getitem init "type" = Return t0 ->
  eq_str t0 "response" = false ->
  answers E is_credentials (VDict d) ->
  assoc "type" d = Some t ->
  let run := (authorize E username password use_query_response_mode st).1 in
  let err := dict_get d "error" in
  (eq_str t "auth" = true -> eq_str err "auth_failure" = true ->
   run = Raise (RiotAuthenticationError err)) /\
  (eq_str t "auth" = true -> eq_str err "rate_limited" = true ->
   run = Raise RiotRatelimitError) /\
  (eq_str t "auth" = true ->
   eq_str err "auth_failure" = false -> eq_str err "rate_limited" = false ->
   run = Raise (RiotUnknownErrorTypeError err)) /\
  (eq_str t "response" = false -> eq_str t "auth" = false ->
   eq_str t "multifactor" = false ->
   run = Raise (RiotUnknownResponseTypeError t)).
Proof.
  intros Hinit Ht0 Hno Hcred Htype run err.
  pose proof (authorize_auth_error init t0 d t username password
                use_query_response_mode st Hinit Ht0 Hno Hcred Htype) as Hauth.
  fold run err in Hauth.
  repeat split.
  - intros Ht Herr. rewrite (Hauth Ht). by rewrite Herr.
  - intros Ht Herr. rewrite (Hauth Ht).
    apply eq_str_true in Herr as ->. reflexivity.
  - intros Ht Herr1 Herr2. rewrite (Hauth Ht). by rewrite Herr1, Herr2.
  - intros H1 H2 H3.
    by apply (authorize_unknown_response init t0 d t).
Qed.

End Authorize.

(** ** __update *)

Lemma comprehension_if_not_underscore (keys : list string) :
  "" ∉ keys ->
  comprehension_if not_underscore keys =
  Return (filter (fun key => is_public key = true) keys).
Proof.
  induction keys as [|key keys IH]; intros Hno; [done|].
  apply not_elem_of_cons in Hno as [Hkey Hkeys].
  cbn [comprehension_if]. rewrite (IH Hkeys).
  destruct key as [|c key]; [done|]. cbn [not_underscore obind].
  rewrite filter_cons. cbn [is_public].
  by destruct (negb (Ascii.eqb c "_")).
Qed.

(** On an instance without an attribute of empty name the allow-list is the
    public names of [attrs]. *)
Lemma predefined_keys_public s :
  attrs s !! "" = None ->
  exists keys,
    predefined_keys s = Return keys /\
    forall key, key ∈ keys <-> is_public key = true /\ is_Some (attrs s !! key).
Proof.
  intros Hno. eexists. split.
  - unfold predefined_keys. apply comprehension_if_not_underscore.
    unfold dict_keys. rewrite !not_elem_of_cons. repeat split; try done.
    intros ([k v] & Hk & Hin)%list_elem_of_fmap. cbn in Hk. subst k.
    apply elem_of_map_to_list in Hin. congruence.
  - intros key. rewrite list_elem_of_filter. unfold dict_keys.
    rewrite !elem_of_cons. split.
    + intros [Hpub [-> | [-> | Hin]]]; try discriminate Hpub.
      split; [done|].
      apply list_elem_of_fmap in Hin as ([k v] & -> & Hin).
      apply elem_of_map_to_list in Hin. by eexists.
    + intros [Hpub [v Hv]]. split; [done|]. right; right.
      apply list_elem_of_fmap. exists (key, v). split; [done|].
      by apply elem_of_map_to_list.
Qed.

(** [dict_update] writes [attrs] only. *)
Lemma dict_update_private s items :
  _auth_ssl_ctx (dict_update s items) = _auth_ssl_ctx s /\
  _cookie_jar (dict_update s items) = _cookie_jar s.
Proof.
  revert s. induction items as [|[k v] items IH]; intros s; [done|].
  destruct (IH (setattr s k v)) as [H1 H2].
  change (dict_update s ((k, v) :: items)) with (dict_update (setattr s k v) items).
  by rewrite H1, H2.
Qed.

Lemma dict_update_other s items key :
  key ∉ items.*1 ->
  attrs (dict_update s items) !! key = attrs s !! key.
Proof.
  revert s. induction items as [|[k v] items IH]; intros s Hno; [done|].
  cbn [fmap list_fmap fst] in Hno. apply not_elem_of_cons in Hno as [Hk Hrest].
  change (dict_update s ((k, v) :: items)) with (dict_update (setattr s k v) items).
  rewrite (IH _ Hrest). cbn [setattr attrs]. by rewrite lookup_insert_ne.
Qed.

Lemma dict_update_written s items key v :
  NoDup items.*1 ->
  (key, v) ∈ items ->
  attrs (dict_update s items) !! key = Some v.
Proof.
  revert s. induction items as [|[k w] items IH]; intros s Hdup Hin.
  - by apply elem_of_nil in Hin.
  - cbn [fmap list_fmap fst] in Hdup. apply NoDup_cons in Hdup as [Hk Hdup].
    change (dict_update s ((k, w) :: items)) with (dict_update (setattr s k w) items).
    apply elem_of_cons in Hin as [[= -> ->] | Hin].
    + rewrite (dict_update_other _ _ _ Hk). cbn [setattr attrs].
      by rewrite lookup_insert_eq.
    + by apply IH.
Qed.

Lemma in_list_true key keys : in_list key keys = true <-> key ∈ keys.
Proof. unfold in_list. apply bool_decide_eq_true. Qed.

Lemma if_predefined_NoDup keys items :
  NoDup items.*1 -> NoDup (if_predefined keys items).*1.
Proof.
  intros Hdup. eapply sublist_NoDup; [exact Hdup|].
  unfold if_predefined. apply fmap_sublist, sublist_filter.
Qed.

Lemma if_predefined_elem_of keys items key v :
  (key, v) ∈ if_predefined keys items <-> key ∈ keys /\ (key, v) ∈ items.
Proof.
  unfold if_predefined. rewrite list_elem_of_filter. cbn [fst].
  by rewrite in_list_true.
Qed.

(** The attributes after [self.__dict__.update] with the admitted items of
    [kwargs]. *)
Lemma update_kwargs_lookup s keys (kwargs : gmap string string) key :
  attrs (dict_update s (if_predefined keys (map_to_list (VStr <$> kwargs)))) !! key =
  if in_list key keys
  then match kwargs !! key with
       | Some v => Some (VStr v)
       | None => attrs s !! key
       end
  else attrs s !! key.
Proof.
  destruct (in_list key keys) eqn:Hin.
  - destruct (kwargs !! key) as [v|] eqn:Hkw.
    + apply dict_update_written.
      * apply if_predefined_NoDup, NoDup_fst_map_to_list.
      * apply if_predefined_elem_of. split; [by apply in_list_true|].
        apply elem_of_map_to_list. by rewrite lookup_fmap, Hkw.
    + apply dict_update_other.
      intros ([k v] & Hk & Hel)%list_elem_of_fmap. cbn in Hk. subst k.
      apply if_predefined_elem_of in Hel as [_ Hel].
      apply elem_of_map_to_list in Hel. rewrite lookup_fmap, Hkw in Hel.
      discriminate.
  - apply dict_update_other.
    intros ([k v] & Hk & Hel)%list_elem_of_fmap. cbn in Hk. subst k.
    apply if_predefined_elem_of in Hel as [Hel _].
    apply in_list_true in Hel. congruence.
Qed.

(** [predefined_keys] returns only on an instance without an attribute of
    empty name. *)
Lemma comprehension_if_not_underscore_Return keys l :
  comprehension_if not_underscore keys = Return l -> "" ∉ keys.
Proof.
  revert l. induction keys as [|key keys IH]; intros l H.
  - apply not_elem_of_nil.
  - cbn [comprehension_if] in H. destruct key as [|c key]; [discriminate|].
    cbn [not_underscore obind] in H.
    destruct (comprehension_if not_underscore keys) as [l'|] eqn:Hl; [|discriminate].
    apply not_elem_of_cons. split; [done|]. by apply (IH l').
Qed.

Lemma predefined_keys_Return s keys :
  predefined_keys s = Return keys ->
  forall key, key ∈ keys <-> is_public key = true /\ is_Some (attrs s !! key).
Proof.
  intros Hkeys.
  assert (attrs s !! "" = None) as Hno.
  { destruct (attrs s !! "") as [v|] eqn:Hv; [|done]. exfalso.
    apply comprehension_if_not_underscore_Return in Hkeys. apply Hkeys.
    unfold dict_keys. do 2 apply list_elem_of_further.
    apply list_elem_of_fmap. exists ("", v). split; [done|].
    by apply elem_of_map_to_list. }
  destruct (predefined_keys_public s Hno) as (keys' & Hkeys' & Hspec).
  rewrite Hkeys in Hkeys'. by injection Hkeys' as ->.
Qed.

Section Update.

Context (E : Env).

(** What the extractor hands back writes [user_id] and [expires_at] at
    most, when [key_attr_pairs] is the default or a string. *)
Lemma additional_data_names s key_attr_pairs additional_data :
  __get_keys_from_access_token E s key_attr_pairs = Return additional_data ->
  match key_attr_pairs with
  | Pairs l => additional_data.*1 = l.*2
  | Chars _ => additional_data = []
  end.
Proof.
  unfold __get_keys_from_access_token.
  repeat (match goal with |- obind ?o _ = _ -> _ => destruct o; [cbn [obind]|discriminate] end).
  destruct key_attr_pairs as [l|cs].
  - revert additional_data. induction l as [|[key attr] l IH]; intros ad.
    + by intros [= <-].
    + cbn [comprehension].
      match goal with |- context [get ?d key] => destruct (get d key) end;
        [|discriminate].
      cbn [obind].
      destruct (comprehension _ l) as [ys|]; [|discriminate]. cbn [obind].
      intros [= <-]. cbn. f_equal. by apply IH.
  - destruct (list_ascii_of_string cs); [by intros [= <-]|discriminate].
Qed.


(** The session's [token_type] once [__update] has returned. *)
Lemma __update_token_type s key_attr_pairs kwargs s' :
  __update E s true key_attr_pairs kwargs = (Return tt, s') ->
  (key_attr_pairs = default_key_attr_pairs \/ exists cs, key_attr_pairs = Chars cs) ->
  attrs s' !! "token_type" =
  match attrs s !! "token_type", kwargs !! "token_type" with
  | Some _, Some v => Some (VStr v)
  | old, _ => old
  end.
Proof.
  intros Hrun Hpairs. unfold __update in Hrun.
  destruct (predefined_keys s) as [keys|] eqn:Hkeys; [|discriminate].
  pose proof (predefined_keys_Return s keys Hkeys "token_type") as Hin.
  match type of Hrun with context [__get_keys_from_access_token E ?x _] =>
    set (s1 := x) in *
  end.
  destruct (__get_keys_from_access_token E s1 key_attr_pairs)
    as [additional_data|] eqn:Hget; [|discriminate].
  injection Hrun as <-.
  apply additional_data_names in Hget.
  rewrite dict_update_other.
  - subst s1. rewrite update_kwargs_lookup.
    destruct (in_list "token_type" keys) eqn:Hallowed.
    + apply in_list_true, Hin in Hallowed as [_ [old ->]]. done.
    + destruct (attrs s !! "token_type") as [old|] eqn:Hold; [|done].
      exfalso. apply not_true_iff_false in Hallowed. apply Hallowed.
      apply in_list_true, Hin. split; [done | by eexists].
  - intros ([k v] & Hk & Hel)%list_elem_of_fmap. cbn in Hk. subst k.
    apply if_predefined_elem_of in Hel as [_ Hel].
    assert ("token_type" ∈ additional_data.*1) as Hname.
    { apply list_elem_of_fmap. by exists ("token_type", v). }
    destruct Hpairs as [-> | [cs ->]].
    + rewrite Hget in Hname. cbn in Hname.
      repeat (apply elem_of_cons in Hname as [Hname | Hname]; [discriminate|]).
      by apply elem_of_nil in Hname.
    + rewrite Hget in Hname. by apply elem_of_nil in Hname.
Qed.

(** [__update] reads the token it has just stored. *)
Lemma __update_reads_stored_token s key_attr_pairs kwargs token :
  attrs s !! "" = None ->
  is_Some (attrs s !! "access_token") ->
  kwargs !! "access_token" = Some token ->
  exists s1,
    getattr s1 "access_token" = Return (VStr token) /\
    __update E s true key_attr_pairs kwargs =
    match __get_keys_from_access_token E s1 key_attr_pairs with
    | Raise e => (Raise e, s1)
    | Return additional_data =>
        (Return tt,
         dict_update s1
           (if_predefined
              (filter (fun key => is_public key = true) (dict_keys s))
              additional_data))
    end.
Proof.
  intros Hno Hattr Hkw.
  destruct (predefined_keys_public s Hno) as (keys & Hkeys & Hspec).
  assert (keys = filter (fun key => is_public key = true) (dict_keys s)) as Hfilter.
  { unfold predefined_keys in Hkeys.
    rewrite comprehension_if_not_underscore in Hkeys; [by injection Hkeys|].
    by eapply comprehension_if_not_underscore_Return. }
  exists (dict_update s (if_predefined keys (map_to_list (VStr <$> kwargs)))).
  split.
  - unfold getattr. rewrite update_kwargs_lookup, Hkw.
    assert (in_list "access_token" keys = true) as ->; [|done].
    apply in_list_true, Hspec. by split.
  - unfold __update. rewrite Hkeys. by rewrite Hfilter.
Qed.

End Update.

(** ** A token that does not decode *)

Section Tokens.

Context (E : Env).

Lemma extraction_fails_Raise s token payload e key_attr_pairs :
  getattr s "access_token" = Return (VStr token) ->
  nth_error (split "." token) 1 = Some payload ->
  extraction_fails E payload e ->
  __get_keys_from_access_token E s key_attr_pairs = Raise e.
Proof.
  intros Htok Hseg Hfail. unfold __get_keys_from_access_token.
  rewrite Htok. cbn [obind]. unfold list_getitem. rewrite Hseg. cbn [obind].
  destruct Hfail as [-> | (bs & je & -> & Hjson & ->)]; [done|].
  cbn [obind]. by rewrite Hjson.
Qed.

Lemma extraction_fails_origin payload e :
  extraction_fails E payload e ->
  is_decode_error e \/ exists je, e = JSONError je.
Proof.
  intros [Hdec | (bs & je & _ & _ & ->)].
  - left. exact (raises_urlsafe_b64decode _ e Hdec).
  - right. by exists je.
Qed.

Lemma call___update_eq s (data : gmap string string) :
  data !! "self" = None ->
  data !! "extract_jwt" = None ->
  call___update E s data =
  __update E s true
    (match data !! "key_attr_pairs" with
     | Some cs => Chars cs
     | None => default_key_attr_pairs
     end)
    (delete "key_attr_pairs" data).
Proof.
  intros Hself Hjwt. unfold call___update. rewrite Hself, Hjwt.
  rewrite !bool_decide_false by (by intros [? ?]). done.
Qed.

Lemma call___update_Return s data s' :
  call___update E s data = (Return tt, s') ->
  data !! "self" = None /\ data !! "extract_jwt" = None.
Proof.
  unfold call___update. intros Hrun.
  destruct (data !! "self") as [v|].
  { rewrite (bool_decide_true (is_Some (Some v))) in Hrun by eauto.
    discriminate. }
  destruct (data !! "extract_jwt") as [v|]; [|done].
  rewrite (bool_decide_true (is_Some (Some v))) in Hrun by eauto.
  rewrite orb_true_r in Hrun. discriminate.
Qed.

(** C4, amended.  When the middle segment of the access token makes the
    lenient decoder raise, or decodes to bytes that [json.loads] rejects, the
    extraction raises that error of the library as it is: the [ValueError]
    or [binascii.Error] of the decoder, or whatever [json.loads] raised.
    The same exception leaves [__set_tokens_from_uri] and [authorize]. *)
Theorem undecodable_token_raises (token payload : string) (e : exn) :
  nth_error (split "." token) 1 = Some payload ->
  extraction_fails E payload e ->
  (is_decode_error e \/ exists je, e = JSONError je) /\
  (forall s key_attr_pairs,
     getattr s "access_token" = Return (VStr token) ->
     __get_keys_from_access_token E s key_attr_pairs = Raise e) /\
  (forall s data m,
     redirect_pairs E data = Return m ->
     m !! "access_token" = Some token ->
     m !! "self" = None -> m !! "extract_jwt" = None ->
     attrs s !! "" = None -> is_Some (attrs s !! "access_token") ->
     (__set_tokens_from_uri E s data).1 = Raise e) /\
  (forall username password q st data st1 m,
     negotiate E username password q st = (Return data, st1) ->
     redirect_pairs E data = Return m ->
     m !! "access_token" = Some token ->
     m !! "self" = None -> m !! "extract_jwt" = None ->
     attrs (self st) !! "" = None -> is_Some (attrs (self st) !! "access_token") ->
     (authorize E username password q st).1 = Raise e).
Proof.
  intros Hseg Hfail.
  assert (forall s data m,
     redirect_pairs E data = Return m ->
     m !! "access_token" = Some token ->
     m !! "self" = None -> m !! "extract_jwt" = None ->
     attrs s !! "" = None -> is_Some (attrs s !! "access_token") ->
     (__set_tokens_from_uri E s data).1 = Raise e) as Hset.
  { intros s data m Hm Htok Hself Hjwt Hno Hattr.
    unfold __set_tokens_from_uri. rewrite Hm.
    rewrite (call___update_eq s m Hself Hjwt).
    edestruct (__update_reads_stored_token E s) as (s1 & Hs1 & ->); [done..| |].
    { rewrite lookup_delete_ne by done. exact Htok. }
    by rewrite (extraction_fails_Raise s1 token payload e _ Hs1 Hseg Hfail). }
  split; [by eapply extraction_fails_origin|].
  split; [intros s kap Htok; by eapply extraction_fails_Raise|].
  split; [exact Hset|].
  intros username password q st data st1 m Hneg Hm Htok Hself Hjwt Hno Hattr.
  destruct (negotiate_same_attrs E username password q st) as [Hsame _].
  rewrite Hneg in Hsame. unfold same_attrs in Hsame. cbn [snd] in Hsame.
  unfold authorize. rewrite (bind_Return _ _ _ _ _ Hneg).
  unfold finish. rewrite bind_Raise with (e := e) (st' := mkState (__set_tokens_from_uri E (self st1) data).2 (sent st1) (files st1)); [done|].
  unfold on_self.
  specialize (Hset (self st1) data m Hm Htok Hself Hjwt).
  rewrite Hsame in Hset. specialize (Hset Hno Hattr).
  destruct (__set_tokens_from_uri E (self st1) data) as [r s']. cbn in Hset.
  by rewrite Hset.
Qed.

(** C9, amended.  When the token-setting step returns, the session's
    [token_type] is the one of the redirect URI if the URI carries one, and
    otherwise what it was before the step.  So [token_type] is set after the
    step when the URI carries a non-empty one, or when it carries none and
    [token_type] was set before. *)
Theorem token_type_after_token_step (s s' : RiotAuth) (data : value)
    (m : gmap string string) :
  __set_tokens_from_uri E s data = (Return tt, s') ->
  redirect_pairs E data = Return m ->
  attrs s' !! "token_type" =
    match attrs s !! "token_type", m !! "token_type" with
    | Some _, Some v => Some (VStr v)
    | old, _ => old
    end /\
  ((is_Some (attrs s !! "token_type") /\
    exists v, m !! "token_type" = Some v /\ v <> "") \/
   (is_set s "token_type" /\ m !! "token_type" = None) ->
   is_set s' "token_type").
Proof.
  intros Hrun Hm. unfold __set_tokens_from_uri in Hrun. rewrite Hm in Hrun.
  destruct (call___update_Return s m s' Hrun) as [Hself Hjwt].
  rewrite (call___update_eq s m Hself Hjwt) in Hrun.
  apply __update_token_type in Hrun; cycle 1.
  { destruct (m !! "key_attr_pairs"); [right; by eexists | by left]. }
  rewrite lookup_delete_ne in Hrun by done.
  split; [exact Hrun|].
  intros [[[old Hold] (v & Hv & Hne)] | [(old & Hold & Hset) Hnone]].
  - exists (VStr v). rewrite Hrun, Hold, Hv. repeat split; congruence.
  - exists old. rewrite Hrun, Hold, Hnone. by destruct Hset.
Qed.

End Tokens.

(** ** The allow-list *)

Section AllowList.

Context (E : Env).

Lemma dict_update_outside s keys items name :
  name ∉ keys ->
  attrs (dict_update s (if_predefined keys items)) !! name = attrs s !! name.
Proof.
  intros Hout. apply dict_update_other.
  intros ([k v] & Hk & Hel)%list_elem_of_fmap. cbn in Hk. subst k.
  by apply if_predefined_elem_of in Hel as [Hel _].
Qed.

(** [__update] leaves the private attributes and every attribute outside
    the allow-list as they were, whether it returns or raises. *)
Lemma __update_frame s extract_jwt key_attr_pairs kwargs :
  _auth_ssl_ctx (__update E s extract_jwt key_attr_pairs kwargs).2 = _auth_ssl_ctx s /\
  _cookie_jar (__update E s extract_jwt key_attr_pairs kwargs).2 = _cookie_jar s /\
  forall name,
    is_public name = false \/ attrs s !! name = None ->
    attrs (__update E s extract_jwt key_attr_pairs kwargs).2 !! name =
    attrs s !! name.
Proof.
  unfold __update.
  destruct (predefined_keys s) as [keys|] eqn:Hkeys; [|done].
  pose proof (predefined_keys_Return s keys Hkeys) as Hspec.
  assert (forall name, is_public name = false \/ attrs s !! name = None ->
                       name ∉ keys) as Hout.
  { intros name Hname [Hpub [v Hv]]%Hspec. destruct Hname; congruence. }
  set (s1 := dict_update s (if_predefined keys (map_to_list (VStr <$> kwargs)))).
  assert (_auth_ssl_ctx s1 = _auth_ssl_ctx s /\ _cookie_jar s1 = _cookie_jar s /\
          forall name, is_public name = false \/ attrs s !! name = None ->
                       attrs s1 !! name = attrs s !! name) as (H1 & H2 & H3).
  { subst s1. destruct (dict_update_private s
      (if_predefined keys (map_to_list (VStr <$> kwargs)))) as [-> ->].
    repeat split. intros name Hname. by apply dict_update_outside, Hout. }
  destruct extract_jwt; [|done].
  destruct (__get_keys_from_access_token E s1 key_attr_pairs) as [ad|]; [|done].
  cbn [snd]. destruct (dict_update_private s1 (if_predefined keys ad)) as [-> ->].
  repeat split; [done..|]. intros name Hname.
  rewrite dict_update_outside by by apply Hout. by apply H3.
Qed.

(** X1.  The token step leaves the private attributes, among them the cookie
    store and the TLS profile, and every attribute outside the allow-list as
    they were, whatever the redirect holds and whether the step returns or
    raises. *)
Theorem token_step_frame (s : RiotAuth) (data : value) :
  _auth_ssl_ctx (__set_tokens_from_uri E s data).2 = _auth_ssl_ctx s /\
  _cookie_jar (__set_tokens_from_uri E s data).2 = _cookie_jar s /\
  forall name,
    is_public name = false \/ attrs s !! name = None ->
    attrs (__set_tokens_from_uri E s data).2 !! name = attrs s !! name.
Proof.
  unfold __set_tokens_from_uri.
  destruct (redirect_pairs E data) as [m|]; [|done].
  unfold call___update. case_match; [done|]. apply __update_frame.
Qed.

Lemma RiotAuth_eq s1 s2 :
  _auth_ssl_ctx s1 = _auth_ssl_ctx s2 ->
  _cookie_jar s1 = _cookie_jar s2 ->
  attrs s1 = attrs s2 ->
  s1 = s2.
Proof. destruct s1, s2. cbn. by intros -> -> ->. Qed.

(** X2.  A key of the URI that names no public attribute, and no parameter
    of [__update], changes nothing: the call behaves as without it. *)
Theorem unknown_key_is_dropped (s : RiotAuth) (data : gmap string string)
    (key v : string) :
  is_public key = false \/ attrs s !! key = None ->
  key <> "self" -> key <> "extract_jwt" -> key <> "key_attr_pairs" ->
  data !! key = None ->
  call___update E s (<[key := v]> data) = call___update E s data.
Proof.
  intros Hout Hself Hjwt Hpairs Hfresh. unfold call___update.
  rewrite !lookup_insert_ne by done.
  case_match; [done|].
  rewrite delete_insert_ne by done.
  unfold __update.
  destruct (predefined_keys s) as [keys|] eqn:Hkeys; [|done].
  pose proof (predefined_keys_Return s keys Hkeys) as Hspec.
  assert (dict_update s (if_predefined keys
            (map_to_list (VStr <$> <[key := v]> (delete "key_attr_pairs" data)))) =
          dict_update s (if_predefined keys
            (map_to_list (VStr <$> delete "key_attr_pairs" data)))) as ->; [|done].
  apply RiotAuth_eq.
  - destruct (dict_update_private s (if_predefined keys
      (map_to_list (VStr <$> <[key := v]> (delete "key_attr_pairs" data))))) as [-> _].
    by destruct (dict_update_private s (if_predefined keys
      (map_to_list (VStr <$> delete "key_attr_pairs" data)))) as [-> _].
  - destruct (dict_update_private s (if_predefined keys
      (map_to_list (VStr <$> <[key := v]> (delete "key_attr_pairs" data))))) as [_ ->].
    by destruct (dict_update_private s (if_predefined keys
      (map_to_list (VStr <$> delete "key_attr_pairs" data)))) as [_ ->].
  - apply map_eq. intros name. rewrite !update_kwargs_lookup.
    destruct (in_list name keys) eqn:Hin; [|done].
    rewrite lookup_insert_ne; [done|]. intros <-.
    apply in_list_true, Hspec in Hin as [Hpub [w Hw]].
    destruct Hout; congruence.
Qed.

End AllowList.

(** ** The wrapper against a scripted answer *)

Section Wrapper.

Context (E : Env).

(** X3.  When the provider answers the credentials with [auth_failure],
    [reauthorize] returns [False]; when it answers with [rate_limited],
    [reauthorize] raises [RiotRatelimitError]. *)
Theorem reauthorize_on_credential_errors (init t0 : value) (err : string)
    (st : State) :
  answers E is_initiation init ->
  getitem init "type" = Return t0 ->
  eq_str t0 "response" = false ->
  answers E is_credentials (VDict [("type", VStr "auth"); ("error", VStr err)]) ->
  (err = "auth_failure" -> (reauthorize E st).1 = Return false) /\
  (err = "rate_limited" -> (reauthorize E st).1 = Raise RiotRatelimitError).
Proof.
  intros Hinit Ht0 Hno Hcred.
  pose proof (authorize_auth_error E init t0
                [("type", VStr "auth"); ("error", VStr err)] (VStr "auth")
                "" "" false st Hinit Ht0 Hno Hcred eq_refl eq_refl) as Hrun.
  rewrite reauthorize_unfold.
  destruct (authorize E "" "" false st) as [r st']. cbn [fst] in Hrun. subst r.
  split; intros ->; reflexivity.
Qed.

(** X4.  When the provider answers the initiation with discriminant
    [response], the first half of [authorize] sends that one request and hands the
    answer to the token step. *)
Theorem redirect_skips_credentials (init t0 : value)
    (username password : string) (use_query_response_mode : bool) (st : State) :
  answers E is_initiation init ->
  getitem init "type" = Return t0 ->
  eq_str t0 "response" = true ->
  exists req,
    (negotiate E username password use_query_response_mode st).1 = Return init /\
    sent (negotiate E username password use_query_response_mode st).2 =
      (sent st ++ [req])%list /\
    is_initiation req.
Proof.
  intros Hinit Ht0 Hyes. eexists. unfold negotiate.
  erewrite bind_Return; cycle 1.
  { instantiate (1 := ((if truthy username && truthy password
                        then cookie_jar_clear else ret tt) st).2).
    instantiate (1 := tt).
    by destruct (truthy username && truthy password). }
  erewrite bind_Return; cycle 1.
  { by apply (request_answered E is_initiation init). }
  erewrite bind_Return; cycle 1.
  { unfold lift. rewrite Ht0. reflexivity. }
  rewrite Hyes. cbn [negb ret fst snd received sent].
  split; [reflexivity|]. split.
  - f_equal. by destruct (truthy username && truthy password).
  - by split.
Qed.

End Wrapper.

(** ** Runs against the scripted provider *)

Module Runs.

Import Sample.

Lemma provider_answers_initiation script data :
  body (initiation script) = Ok data ->
  answers (env script) is_initiation data.
Proof.
  intros Hdata req [Hmethod Hurl]. cbn [env send]. unfold provider.
  by rewrite Hmethod, Hurl.
Qed.

Lemma provider_answers_credentials script data :
  body (credentials script) = Ok data ->
  answers (env script) is_credentials data.
Proof.
  intros Hdata req [Hmethod Htype]. cbn [env send]. unfold provider.
  by rewrite Hmethod, Htype.
Qed.

Lemma credential_failure_branching_witness :
  (authorize (env script_auth_failure) "user" "secret" false (start fresh)).1 =
  Raise (RiotAuthenticationError (VStr "auth_failure")).
Proof.
  apply (credential_failure_branching (env script_auth_failure)
           challenge (VStr "auth")
           [("type", VStr "auth"); ("error", VStr "auth_failure")] (VStr "auth")
           "user" "secret" false (start fresh)).
  - apply provider_answers_initiation. reflexivity.
  - reflexivity.
  - reflexivity.
  - apply provider_answers_credentials. reflexivity.
  - reflexivity.
  - reflexivity.
  - reflexivity.
Defined.

Lemma credential_error_keeps_tokens_witness :
  Forall
    (fun field =>
       attrs (self (authorize (env script_auth_failure) "user" "secret" false
                      (start fresh)).2) !! field =
       attrs (self (start fresh)) !! field)
    token_fields.
Proof.
  apply (credential_error_keeps_tokens (env script_auth_failure)
           "user" "secret" false (start fresh)
           (authorize (env script_auth_failure) "user" "secret" false (start fresh)).2
           (RiotAuthenticationError (VStr "auth_failure"))).
  - vm_compute. reflexivity.
  - reflexivity.
Defined.

Lemma undecodable_token_raises_witness :
  (authorize (env (script_redirect uri_short_payload)) "" "" false
     (start fresh)).1 = Raise binascii_Error.
Proof.
  assert (nth_error (split "." "h.a.s") 1 = Some "a") as Hseg
    by (vm_compute; reflexivity).
  assert (extraction_fails (env (script_redirect uri_short_payload)) "a"
            binascii_Error) as Hfail
    by (left; vm_compute; reflexivity).
  destruct (undecodable_token_raises (env (script_redirect uri_short_payload))
              "h.a.s" "a" binascii_Error Hseg Hfail) as (_ & _ & _ & Hrun).
  apply (Hrun "" "" false (start fresh)
           (redirect "fragment" uri_short_payload)
           (negotiate (env (script_redirect uri_short_payload)) "" "" false
              (start fresh)).2
           (dict_of_pairs [("access_token", "h.a.s"); ("token_type", "Bearer")])).
  - vm_compute. reflexivity.
  - vm_compute. reflexivity.
  - vm_compute. reflexivity.
  - vm_compute. reflexivity.
  - vm_compute. reflexivity.
  - vm_compute. reflexivity.
  - exists VNone. vm_compute. reflexivity.
Defined.

(** No character of the standard alphabet is an exclamation mark. *)
Lemma table_b2a_base64_not_bang v : table_b2a_base64 v <> "!"%char.
Proof.
  unfold table_b2a_base64. generalize (Z.to_nat v). intros n.
  do 64 (destruct n as [|n]; [vm_compute; discriminate|]).
  vm_compute. discriminate.
Qed.

Lemma not_standard_base64 bs : rfc4648_encode bs <> "e30!".
Proof.
  destruct bs as [|a [|b [|c rest]]]; cbn [rfc4648_encode].
  - discriminate.
  - intros [= _ _]. 
  - intros [= _ _ _].
  - intros [= _ _ _ Hbang _]. by apply (table_b2a_base64_not_bang (sextet3 c)).
Qed.

(** C4, as stated, fails twice.  The middle segment [e30!] is not base64 of
    any alphabet, yet the decoder skips the [!] and the extraction returns;
    and on the segment [a], which the decoder rejects, the exception is
    [binascii.Error]: the module has no error of its own for a malformed
    token. *)
Lemma undecodable_token_counterexample :
  split "." "h.e30!.s" = ["h"; "e30!"; "s"] /\
  (forall bs, rfc4648_encode bs <> "e30!") /\
  __get_keys_from_access_token (env script_ok)
    (setattr fresh "access_token" (VStr "h.e30!.s")) default_key_attr_pairs =
    Return [("user_id", VNone); ("expires_at", VNone)] /\
  __get_keys_from_access_token (env script_ok)
    (setattr fresh "access_token" (VStr "h.a.s")) default_key_attr_pairs =
    Raise binascii_Error /\
  class_name binascii_Error <> "MalformedTokenError".
Proof.
  split; [vm_compute; reflexivity|].
  split; [exact not_standard_base64|].
  split; [vm_compute; reflexivity|].
  split; [vm_compute; reflexivity|].
  discriminate.
Qed.

Lemma token_type_after_token_step_witness :
  is_set
    (__set_tokens_from_uri (env script_ok) fresh (redirect "fragment" uri)).2
    "token_type".
Proof.
  destruct (token_type_after_token_step (env script_ok) fresh
              (__set_tokens_from_uri (env script_ok) fresh
                 (redirect "fragment" uri)).2
              (redirect "fragment" uri)
              (dict_of_pairs
                 [ ("access_token", token); ("scope", "openid");
                   ("id_token", "idt"); ("token_type", "Bearer");
                   ("expires_in", "3600") ])) as [_ Hset].
  - vm_compute. reflexivity.
  - vm_compute. reflexivity.
  - apply Hset. left. split.
    + exists VNone. vm_compute. reflexivity.
    + exists "Bearer". split; [vm_compute; reflexivity | discriminate].
Defined.

(** C9, as stated, fails.  On a fresh session, a redirect URI that carries
    an access token and no [token_type] makes the token step return with
    [access_token] set and [token_type] still [None]; the run goes on and
    sends the entitlements request with the header
    [Authorization: None h.e30.s]. *)
Lemma token_type_counterexample :
  __set_tokens_from_uri (env script_ok) fresh
    (redirect "fragment" uri_without_token_type) =
  (Return tt,
   setattr (setattr (setattr fresh "access_token" (VStr "h.e30.s"))
              "user_id" VNone) "expires_at" VNone) /\
  attrs (setattr (setattr (setattr fresh "access_token" (VStr "h.e30.s"))
                    "user_id" VNone) "expires_at" VNone) !! "token_type" =
    Some VNone /\
  (authorize (env (script_redirect uri_without_token_type)) "" "" false
     (start fresh)).1 = Return tt /\
  (assoc_header "Authorization" <$>
   last (sent (authorize (env (script_redirect uri_without_token_type)) "" ""
                 false (start fresh)).2)) =
    Some (Some "None h.e30.s").
Proof.
  repeat split; vm_compute; reflexivity.
Qed.

(** C6 at the failing input.  A redirect URI with a key [extract_jwt]: the
    key is not an attribute of the session, and instead of being dropped it
    collides with the keyword argument of the call
    [self.__update(extract_jwt=True, **data)], which raises [TypeError].
    Without that key the same redirect is merged. *)
Theorem uri_key_named_like_parameter :
  redirect_pairs (env script_ok)
    (redirect "fragment"
       "http://localhost/redirect#access_token=h.e30.s&extract_jwt=1") =
    Return (dict_of_pairs [("access_token", "h.e30.s"); ("extract_jwt", "1")]) /\
  attrs fresh !! "extract_jwt" = None /\
  __set_tokens_from_uri (env script_ok) fresh
    (redirect "fragment"
       "http://localhost/redirect#access_token=h.e30.s&extract_jwt=1") =
    (Raise TypeError, fresh) /\
  (__set_tokens_from_uri (env script_ok) fresh
     (redirect "fragment" "http://localhost/redirect#access_token=h.e30.s")).1 =
    Return tt.
Proof.
  repeat split; vm_compute; reflexivity.
Qed.

(** C8 at the failing input.  The provider answers the multifactor code
    with [multifactor_attempt_failed]: the run ends before the token step, but
    with [NameError], because the class the branch names is bound nowhere in
    the module; it is no error of the [riot_auth] package. *)
Theorem multifactor_failure_raises_NameError :
  (authorize (env script_multifactor_failed) "user" "secret" false
     (start fresh)).1 =
    Raise (NameError "RiotMultifactorAttemptError") /\
  class_name (NameError "RiotMultifactorAttemptError") = "NameError" /\
  is_RiotAuthenticationError (NameError "RiotMultifactorAttemptError") = false /\
  attrs (self (authorize (env script_multifactor_failed) "user" "secret" false
                 (start fresh)).2) = attrs fresh /\
  length (sent (authorize (env script_multifactor_failed) "user" "secret" false
                  (start fresh)).2) = 3%nat.
Proof.
  repeat split; vm_compute; reflexivity.
Qed.

Lemma unknown_key_is_dropped_witness :
  call___update (env script_ok) fresh
    (<["expires_in" := "3600"]> (dict_of_pairs [("access_token", token)])) =
  call___update (env script_ok) fresh (dict_of_pairs [("access_token", token)]).
Proof.
  apply (unknown_key_is_dropped (env script_ok) fresh
           (dict_of_pairs [("access_token", token)]) "expires_in" "3600").
  - right. vm_compute. reflexivity.
  - discriminate.
  - discriminate.
  - discriminate.
  - vm_compute. reflexivity.
Defined.

(** The provider throttles the credentials. *)
Lemma reauthorize_on_credential_errors_witness :
  (reauthorize
     (env (mkScript (answer challenge) (answer (auth_error "rate_limited"))
             (answer VNone) (answer entitled)))
     (start fresh)).1 = Raise RiotRatelimitError.
Proof.
  apply (reauthorize_on_credential_errors
           (env (mkScript (answer challenge) (answer (auth_error "rate_limited"))
                   (answer VNone) (answer entitled)))
           challenge (VStr "auth") "rate_limited" (start fresh)).
  - apply provider_answers_initiation. reflexivity.
  - reflexivity.
  - reflexivity.
  - apply provider_answers_credentials. reflexivity.
  - reflexivity.
Defined.

Lemma redirect_skips_credentials_witness :
  exists req,
    (negotiate (env (script_redirect uri)) "" "" false (start fresh)).1 =
      Return (redirect "fragment" uri) /\
    sent (negotiate (env (script_redirect uri)) "" "" false (start fresh)).2 =
      ([] ++ [req])%list /\
    is_initiation req.
Proof.
  apply (redirect_skips_credentials (env (script_redirect uri))
           (redirect "fragment" uri) (VStr "response") "" "" false (start fresh)).
  - apply provider_answers_initiation. reflexivity.
  - reflexivity.
  - reflexivity.
Defined.

End Runs.
